(** * Crawler, article parser and corpus validation of the ctlr labs

    A shallow embedding of [lab_5_scrapper/scrapper.py] and of
    [CorpusManager._validate_dataset] from [lab_6_pipeline/pipeline.py],
    followed by the properties established about them.

    Conventions of the embedding:
    - a Python [str] is the list of its code points ([list N]); literals of
      the source are written with [lit] (ASCII) or as explicit code points;
    - a Python exception is a constructor of [exn]; a call that may raise
      returns a [result];
    - code that mutates an object or talks to the network threads a state
      and returns the state reached together with the outcome, so that what
      was done before an exception stays visible. *)

From Stdlib Require Import ZArith NArith List Lia Bool Ascii String DecimalString Permutation.
From stdpp Require Import base decidable option list sorting gmap.
Import ListNotations.

Set Warnings "-register-all".
Local Open Scope Z_scope.

(** ** Python strings *)

Abbreviation str := (list N).

(** A source literal made of ASCII characters. *)
Fixpoint lit (s : string) : str :=
  match s with
  | EmptyString => []
  | String a r => N_of_ascii a :: lit r
  end.

Definition str_eqb (a b : str) : bool := bool_decide (a = b).

(** [s.startswith(p)]; also the outcome of [re.match] for a pattern that is
    a plain literal. *)
Fixpoint startswith (p s : str) : bool :=
  match p, s with
  | [], _ => true
  | c :: p', d :: s' => N.eqb c d && startswith p' s'
  | _ :: _, [] => false
  end.

(** ** Exceptions and outcomes *)

Inductive exn : Type :=
| IncorrectSeedURLError
| NumberOfArticlesOutOfRangeError
| IncorrectNumberOfArticlesError
| IncorrectHeadersError
| IncorrectEncodingError
| IncorrectTimeoutError
| IncorrectVerifyError
| InconsistentDatasetError
| EmptyDirectoryError
| FileNotFoundError
| NotADirectoryError
| TypeError
| KeyError
| IndexError
| AttributeError
| ValueError
| RequestException.

Inductive result (A : Type) : Type :=
| Ok (a : A)
| Raise (e : exn).
Arguments Ok {A} a.
Arguments Raise {A} e.

Definition rbind {A B} (r : result A) (k : A -> result B) : result B :=
  match r with
  | Ok a => k a
  | Raise e => Raise e
  end.

Declare Scope py_scope.
Delimit Scope py_scope with py.
Notation "'let*' x ':=' r 'in' k" := (rbind r (fun x => k))
  (at level 10, x name, r at level 100, k at level 200) : py_scope.
(** [if c: raise e] followed by the rest of the body. *)
Notation "'unless' c 'raise' e 'in' k" := (if c then Raise e else k)
  (at level 10, c at level 100, e at level 100, k at level 200) : py_scope.

(** ** Values read by [json.load] *)

Inductive pyval : Type :=
| PyNone
| PyBool (b : bool)
| PyInt (z : Z)
| PyFloat (literal : str)
| PyStr (s : str)
| PyList (l : list pyval)
| PyDict (d : gmap str pyval).

(** [isinstance(v, int)]: [bool] is a subclass of [int]. *)
Definition isinstance_int (v : pyval) : bool :=
  match v with PyInt _ | PyBool _ => true | _ => false end.
Definition isinstance_bool (v : pyval) : bool :=
  match v with PyBool _ => true | _ => false end.
Definition isinstance_list (v : pyval) : bool :=
  match v with PyList _ => true | _ => false end.
Definition isinstance_dict (v : pyval) : bool :=
  match v with PyDict _ => true | _ => false end.
Definition isinstance_str (v : pyval) : bool :=
  match v with PyStr _ => true | _ => false end.

(** The integer an [int] instance stands for in a comparison
    ([True] is 1, [False] is 0); only used behind [isinstance_int]. *)
Definition int_value (v : pyval) : Z :=
  match v with
  | PyInt z => z
  | PyBool true => 1
  | _ => 0
  end.

(** [conf[key]] *)
Definition getitem (conf : pyval) (key : str) : result pyval :=
  match conf with
  | PyDict d => match d !! key with Some v => Ok v | None => Raise KeyError end
  | _ => Raise TypeError
  end.

(** ** Config._validate_config_content *)

(** [re.match(r"https://", seed_url)]: a non-string argument is a
    [TypeError]. *)
Definition re_match_https (seed_url : pyval) : result bool :=
  match seed_url with
  | PyStr s => Ok (startswith (lit "https://") s)
  | _ => Raise TypeError
  end.

(** [all(re.match(...) for seed_url in seed_urls)], left to right, stopping
    at the first element that does not match. *)
Fixpoint all_match_https (seed_urls : list pyval) : result bool :=
  match seed_urls with
  | [] => Ok true
  | seed_url :: rest =>
      (let* m := re_match_https seed_url in
       if m then all_match_https rest else Ok false)%py
  end.

(** [isinstance(conf['seed_urls'], list) and all(...)] *)
Definition seed_urls_accepted (v : pyval) : result bool :=
  match v with
  | PyList l => all_match_https l
  | _ => Ok false
  end.

(** The argument is the document [json.load] returned. *)
Definition _validate_config_content (conf : pyval) : result unit :=
  (let* seed_urls := getitem conf (lit "seed_urls") in
   let* accepted := seed_urls_accepted seed_urls in
   unless negb accepted raise IncorrectSeedURLError in
   let* num := getitem conf (lit "total_articles_to_find_and_parse") in
   unless negb (isinstance_int num) || (int_value num <? 0) || isinstance_bool num
     raise IncorrectNumberOfArticlesError in
   unless (int_value num >? 150) || (int_value num <? 1)
     raise NumberOfArticlesOutOfRangeError in
   let* headers := getitem conf (lit "headers") in
   unless negb (isinstance_dict headers) raise IncorrectHeadersError in
   let* encoding := getitem conf (lit "encoding") in
   unless negb (isinstance_str encoding) raise IncorrectEncodingError in
   let* verify := getitem conf (lit "should_verify_certificate") in
   unless negb (isinstance_bool verify) raise IncorrectVerifyError in
   let* headless := getitem conf (lit "headless_mode") in
   unless negb (isinstance_bool headless) raise IncorrectVerifyError in
   let* timeout := getitem conf (lit "timeout") in
   unless negb (isinstance_int timeout)
          || (int_value timeout >=? 60) || (int_value timeout <=? 0)
     raise IncorrectTimeoutError in
   Ok tt)%py.

(** ** Documents built by BeautifulSoup

    An attribute value is a string, or a list of strings for the
    multi-valued attributes ([class], [rel], ...).

    A string of the tree is of one of two kinds. [NavigableString] is text:
    an object of the class [NavigableString] itself, or a CDATA section.
    [Comment] is a string of another class: a comment, and likewise a
    declaration, a doctype, a processing instruction, or the text of a
    [script], [style] or [template] element where the library gives it a
    class of its own. Both kinds count among the contents of a tag and are
    what [tag.string] returns; only text is among the strings that
    [stripped_strings] of a link gives. *)

Inductive attr_value : Type :=
| AttrStr (s : str)
| AttrList (l : list str).

Inductive node : Type :=
| NavigableString (s : str)
| Comment (s : str)
| Tag (name : str) (attrs : list (str * attr_value)) (contents : list node).

(** [tag.get(key)] *)
Fixpoint attrs_get (attrs : list (str * attr_value)) (key : str) : option attr_value :=
  match attrs with
  | [] => None
  | (k, v) :: rest => if str_eqb k key then Some v else attrs_get rest key
  end.

Definition get (tag : node) (key : str) : option attr_value :=
  match tag with
  | Tag _ attrs _ => attrs_get attrs key
  | NavigableString _ | Comment _ => None
  end.

(** [tag[key]] *)
Definition tag_getitem (tag : node) (key : str) : result attr_value :=
  match get tag key with
  | Some v => Ok v
  | None => Raise KeyError
  end.

(** A node followed by its descendants, in document order. *)
Fixpoint self_and_descendants (n : node) : list node :=
  n :: match n with
       | NavigableString _ | Comment _ => []
       | Tag _ _ contents =>
           (fix go (l : list node) : list node :=
              match l with
              | [] => []
              | c :: r => self_and_descendants c ++ go r
              end) contents
       end.

(** [tag.descendants] *)
Definition descendants (n : node) : list node := tail (self_and_descendants n).

(** [' '.join(l)] *)
Fixpoint join_space (l : list str) : str :=
  match l with
  | [] => []
  | [x] => x
  | x :: r => x ++ lit " " ++ join_space r
  end.

(** How a search compares an attribute value with a string: equality for a
    plain value; for a multi-valued attribute, equality with one of the
    values or with the values joined by single spaces. A missing attribute
    only matches the empty string. *)
Definition value_matches (markup : option attr_value) (match_against : str) : bool :=
  match markup with
  | None => match match_against with [] => true | _ => false end
  | Some (AttrStr s) => str_eqb s match_against
  | Some (AttrList l) =>
      existsb (fun item => str_eqb item match_against) l
      || str_eqb (join_space l) match_against
  end.

Definition tag_matches (name : option str) (attrs : list (str * str)) (n : node) : bool :=
  match n with
  | NavigableString _ | Comment _ => false
  | Tag nm ats _ =>
      match name with None => true | Some x => str_eqb nm x end
      && forallb (fun kv => value_matches (attrs_get ats (fst kv)) (snd kv)) attrs
  end.

(** [tag.findAll(name, **attrs)]: the matching descendants in document
    order. *)
Definition findAll (name : option str) (attrs : list (str * str)) (n : node) : list node :=
  List.filter (tag_matches name attrs) (descendants n).

(** [tag.find(name, **attrs)]: the first of them, or [None]. *)
Definition find (name : option str) (attrs : list (str * str)) (n : node) : option node :=
  head (findAll name attrs n).

(** [str.isspace] on one character. *)
Definition isspace (c : N) : bool :=
  ((9 <=? c) && (c <=? 13) || (28 <=? c) && (c <=? 32)
   || (c =? 133) || (c =? 160) || (c =? 5760)
   || (8192 <=? c) && (c <=? 8202)
   || (c =? 8232) || (c =? 8233) || (c =? 8239) || (c =? 8287) || (c =? 12288))%N.

Fixpoint lstrip (s : str) : str :=
  match s with
  | [] => []
  | c :: r => if isspace c then lstrip r else s
  end.

Definition strip (s : str) : str := rev (lstrip (rev (lstrip s))).

(** [tag.stripped_strings], for a tag that is no [script], [style] or
    [template] element: the texts below the tag, stripped, the empty ones
    dropped; comments are passed over. *)
Definition stripped_strings (tag : node) : list str :=
  flat_map (fun d =>
              match d with
              | NavigableString s =>
                  match strip s with [] => [] | s' => [s'] end
              | Comment _ => []
              | Tag _ _ _ => []
              end) (descendants tag).

(** [tag.string]: when the tag has exactly one child, that child if it is a
    string of either kind, else the [string] of that child; [None] when the
    tag has no child or several. *)
Fixpoint string_of (n : node) : option str :=
  match n with
  | NavigableString s => Some s
  | Comment s => Some s
  | Tag _ _ [c] => string_of c
  | Tag _ _ _ => None
  end.

(** ** Responses and the network *)

Record Response : Type := { status_code : Z; text : str }.

(** [response.ok]: no client or server error status. *)
Definition ok (r : Response) : bool :=
  negb ((400 <=? status_code r) && (status_code r <? 600)).

Record Config : Type := {
  _seed_urls : list str;
  _num_articles : Z;
  _headers : gmap str str;
  _encoding : str;
  _timeout : Z;
  _should_verify_certificate : bool;
  _headless_mode : bool
}.

(** What [requests.get] answers, given the requests issued so far; it
    either returns a response or raises. *)
Definition network : Type := list str -> str -> Config -> result Response.

(** [make_request]: one GET, recorded in the log of requests. The pause
    before the request is not part of the model. *)
Definition make_request (requests_get : network) (url : str) (config : Config)
    (log : list str) : result Response * list str :=
  (requests_get log url config, log ++ [url]).

(** [s.split(sep)[0]] for a one-character separator. *)
Fixpoint split_head (sep : N) (s : str) : str :=
  match s with
  | [] => []
  | c :: r => if N.eqb c sep then [] else c :: split_head sep r
  end.

(** [range(a, b)] *)
Definition range (a b : Z) : list Z :=
  map (fun i => a + Z.of_nat i) (seq 0 (Z.to_nat (b - a))).

(** [str(num)] for an integer: its decimal numeral. *)
Definition str_of_int (num : Z) : str :=
  lit (DecimalString.NilZero.string_of_int (Z.to_int num)).

(** [[f(x) for x in l]], where [f] may raise. *)
Fixpoint comprehension {A B : Type} (f : A -> result B) (l : list A) : result (list B) :=
  match l with
  | [] => Ok []
  | x :: r =>
      (let* y := f x in
       let* ys := comprehension f r in
       Ok (y :: ys))%py
  end.

(** The marker of a link to an article: the word "Подробнее". *)
Definition marker : str :=
  [1055; 1086; 1076; 1088; 1086; 1073; 1085; 1077; 1077]%N.

Module Crawler.

Record Crawler : Type := {
  config : Config;
  urls : list str;
  url_pattern : str
}.

Definition __init__ (config : Config) : result Crawler :=
  match _seed_urls config with
  | [] => Raise IndexError
  | first :: _ =>
      Ok {| config := config; urls := []; url_pattern := split_head 63 first |}
  end.

Definition get_search_urls (self : Crawler) : list str := _seed_urls (config self).

(** [self.urls.extend(found)] *)
Definition extend (self : Crawler) (found : list str) : Crawler :=
  {| config := config self; urls := urls self ++ found; url_pattern := url_pattern self |}.

(** [article_bs.findAll('a', hreflang='ru')] *)
Definition links (article_bs : node) : list node :=
  findAll (Some (lit "a")) [(lit "hreflang", lit "ru")] article_bs.

(** The marker is one of [link.stripped_strings]. *)
Definition marked (link : node) : bool :=
  existsb (str_eqb marker) (stripped_strings link).

(** [url not in self.urls], for the value [link.get('href')] returned. *)
Definition not_in_urls (url : option attr_value) (urls : list str) : bool :=
  match url with
  | Some (AttrStr s) => negb (existsb (str_eqb s) urls)
  | _ => true
  end.

(** The [for link in links] loop of [_extract_url]; [url] is the value of
    the variable on entry, the result its value when the loop is left. *)
Fixpoint _extract_url_loop (urls : list str) (url : option attr_value)
    (links : list node) : option attr_value :=
  match links with
  | [] => url
  | link :: rest =>
      if marked link then
        let url := get link (lit "href") in
        if not_in_urls url urls then url
        else _extract_url_loop urls url rest
      else _extract_url_loop urls url rest
  end.

Definition _extract_url (self : Crawler) (article_bs : node) : result str :=
  match _extract_url_loop (urls self) (Some (AttrStr [])) (links article_bs) with
  | Some (AttrStr url) =>
      Ok (url_pattern self ++ drop (length (lit "/news")) url)
  | Some (AttrList _) => Raise TypeError
  | None => Raise TypeError
  end.

Section Run.
Variable BeautifulSoup : str -> str -> node.
Variable requests_get : network.

(** The [for seed_url in seed_urls] loop of [find_articles]. The result is
    the outcome together with the crawler and the request log reached. *)
Fixpoint find_articles_loop (self : Crawler) (seed_urls : list str) (log : list str)
    : result unit * Crawler * list str :=
  match seed_urls with
  | [] => (Ok tt, self, log)
  | seed_url :: rest =>
      match make_request requests_get seed_url (config self) log with
      | (Raise e, log) => (Raise e, self, log)
      | (Ok response, log) =>
          if negb (ok response) then find_articles_loop self rest log
          else
            let article_bs := BeautifulSoup (text response) (lit "html.parser") in
            match comprehension (fun _ => _extract_url self article_bs) (seq 0 10) with
            | Raise e => (Raise e, self, log)
            | Ok found =>
                find_articles_loop (extend self found) rest log
            end
      end
  end.

Definition find_articles (self : Crawler) (log : list str)
    : result unit * Crawler * list str :=
  find_articles_loop self (get_search_urls self) log.

End Run.
End Crawler.

Module CrawlerRecursive.

Record CrawlerRecursive : Type := {
  base : Crawler.Crawler;
  inforced_stop : bool;
  start_url : str
}.

(** [s[:-1]] *)
Definition drop_last (s : str) : str := take (length s - 1)%nat s.

Definition __init__ (config : Config) : result CrawlerRecursive :=
  (let* base := Crawler.__init__ config in
   match _seed_urls config with
   | [] => Raise IndexError
   | first :: _ =>
       Ok {| base := base; inforced_stop := false; start_url := drop_last first |}
   end)%py.

Section Run.
Variable BeautifulSoup : str -> str -> node.
Variable requests_get : network.
(** [int] on a string. *)
Variable int : str -> result Z.

(** [int(article_bs.find(class_='pager__item pager__item--last').find('a')['href'])] *)
Definition read_last_page (article_bs : node) : result Z :=
  match find None [(lit "class", lit "pager__item pager__item--last")] article_bs with
  | None => Raise AttributeError
  | Some pager =>
      match find (Some (lit "a")) [] pager with
      | None => Raise TypeError
      | Some a =>
          (let* href := tag_getitem a (lit "href") in
           match href with
           | AttrStr s => int s
           | AttrList _ => Raise TypeError
           end)%py
      end
  end.

Definition find_articles (self : CrawlerRecursive) (log : list str)
    : result unit * CrawlerRecursive * list str :=
  match make_request requests_get (start_url self) (Crawler.config (base self)) log with
  | (Raise e, log) => (Raise e, self, log)
  | (Ok response, log) =>
      match (if ok response
             then read_last_page (BeautifulSoup (text response) (lit "html.parser"))
             else Ok 0) with
      | Raise e => (Raise e, self, log)
      | Ok last_page =>
          let seed_urls :=
            map (fun num => start_url self ++ str_of_int num) (range 0 last_page) in
          match Crawler.find_articles_loop BeautifulSoup requests_get
                  (base self) seed_urls log with
          | (r, crawler, log) =>
              (r, {| base := crawler; inforced_stop := inforced_stop self;
                     start_url := start_url self |}, log)
          end
      end
  end.

End Run.
End CrawlerRecursive.

(** ** Articles *)

Record datetime : Type := {
  year : Z; month : Z; day : Z; hour : Z; minute : Z; second : Z
}.

(** An attribute of an article: not filled in yet, or assigned. *)
Inductive field (A : Type) : Type :=
| Unset
| Assigned (a : A).
Arguments Unset {A}.
Arguments Assigned {A} a.

Module Article.

(** Modelled from the spec: the class [Article] of [core_utils.article] is
    not among the sources. Per the data model, a record has the identity
    (source URL, integer id) and the fields title, body text, publication
    date, author list and topic list; it is created empty, with only the
    identity set. A title or a topic holds what [tag.string] gave, which may
    be [None]. *)
Record Article : Type := {
  url : str;
  article_id : Z;
  title : field (option str);
  text : field str;
  date : field datetime;
  author : field (list str);
  topics : field (list (option str))
}.

Definition __init__ (url : str) (article_id : Z) : Article :=
  {| url := url; article_id := article_id; title := Unset; text := Unset;
     date := Unset; author := Unset; topics := Unset |}.

End Article.

Module HTMLParser.

Record HTMLParser : Type := {
  full_url : str;
  article_id : Z;
  config : Config;
  article : Article.Article
}.

Definition __init__ (full_url : str) (article_id : Z) (config : Config) : HTMLParser :=
  {| full_url := full_url; article_id := article_id; config := config;
     article := Article.__init__ full_url article_id |}.

Definition with_article (self : HTMLParser) (a : Article.Article) : HTMLParser :=
  {| full_url := full_url self; article_id := article_id self;
     config := config self; article := a |}.

(** [f'{x}'] for a string or [None] *)
Definition format_string (x : option str) : str :=
  match x with
  | Some s => s
  | None => lit "None"
  end.

Definition _fill_article_with_text (self : HTMLParser) (article_soup : node)
    : result HTMLParser :=
  match find None [(lit "itemprop", lit "headline")] article_soup with
  | None => Raise AttributeError
  | Some headline =>
      let raw_text := format_string (string_of headline) in
      let text_blocks := findAll (Some (lit "p")) [] article_soup in
      let raw_text :=
        fold_left (fun raw_text text_block =>
                     match string_of text_block with
                     | None | Some [] => raw_text
                     | Some s => raw_text ++ 10%N :: s
                     end) text_blocks raw_text in
      let a := article self in
      Ok (with_article self
            {| Article.url := Article.url a; Article.article_id := Article.article_id a;
               Article.title := Article.title a; Article.text := Assigned raw_text;
               Article.date := Article.date a; Article.author := Article.author a;
               Article.topics := Article.topics a |})
  end.

Section Parse.
Variable BeautifulSoup : str -> str -> node.
Variable requests_get : network.
(** [datetime.datetime.strptime], applied to a string and a format. *)
Variable strptime : str -> str -> result datetime.

Definition unify_date_format (self : HTMLParser) (date_str : str) : result datetime :=
  strptime date_str (lit "%Y-%m-%d %H:%M:%S").

Definition topic_class : str :=
  lit "field field--name-field-tegi " ++ lit "field--type-entity-reference "
  ++ lit "field--label-hidden field__items".

Definition _fill_article_with_meta_information (self : HTMLParser) (article_soup : node)
    : result HTMLParser :=
  match find None [(lit "itemprop", lit "headline")] article_soup with
  | None => Raise AttributeError
  | Some headline =>
      let title := string_of headline in
      match find None [(lit "itemprop", lit "datePublished")] article_soup with
      | None => Raise TypeError
      | Some published =>
          (let* date := tag_getitem published (lit "datetime") in
           let* date := match date with
                        | AttrStr s => unify_date_format self s
                        | AttrList _ => Raise TypeError
                        end in
           match findAll (Some (lit "strong")) [] article_soup !! 1%nat with
           | None => Raise IndexError
           | Some strong =>
               let author := match string_of strong with
                             | None | Some [] => [lit "NOT FOUND"]
                             | Some author => [author]
                             end in
               match findAll None [(lit "class", topic_class)] article_soup with
               | [] => Raise IndexError
               | topic_field :: _ =>
                   let topics := findAll (Some (lit "a")) [] topic_field in
                   let a := article self in
                   Ok (with_article self
                         {| Article.url := Article.url a;
                            Article.article_id := Article.article_id a;
                            Article.title := Assigned title;
                            Article.text := Article.text a;
                            Article.date := Assigned date;
                            Article.author := Assigned author;
                            Article.topics := Assigned (map string_of topics) |})
               end
           end)%py
      end
  end.

(** The result is what [parse] returns or raises, with the request log
    reached. *)
Definition parse (self : HTMLParser) (log : list str) : result Article.Article * list str :=
  match make_request requests_get (full_url self) (config self) log with
  | (Raise e, log) => (Raise e, log)
  | (Ok response, log) =>
      if ok response then
        let article_bs := BeautifulSoup (text response) (lit "lxml") in
        ((let* self := _fill_article_with_text self article_bs in
          let* self := _fill_article_with_meta_information self article_bs in
          Ok (article self))%py, log)
      else (Ok (article self), log)
  end.

(** The persistence sinks [to_raw] and [to_meta] of [core_utils.article.io]
    are not among the sources: they act on some store and may raise. *)
Variable Store : Type.
Variable to_raw : Article.Article -> Store -> result unit * Store.
Variable to_meta : Article.Article -> Store -> result unit * Store.

(** The [for index, url in enumerate(crawler.urls)] loop of [main], from
    position [index] on. *)
Fixpoint main_loop (configuration : Config) (index : Z) (urls : list str)
    (log : list str) (store : Store) : result unit * list str * Store :=
  match urls with
  | [] => (Ok tt, log, store)
  | url :: rest =>
      let parser := __init__ url (index + 1) configuration in
      match parse parser log with
      | (Raise e, log) => (Raise e, log, store)
      | (Ok article, log) =>
          match to_raw article store with
          | (Raise e, store) => (Raise e, log, store)
          | (Ok _, store) =>
              match to_meta article store with
              | (Raise e, store) => (Raise e, log, store)
              | (Ok _, store) => main_loop configuration (index + 1) rest log store
              end
          end
      end
  end.

End Parse.
End HTMLParser.

(** ** Library functions on numerals, for inputs written with ASCII digits

    The crawler and the parser are stated for any [int] and any [strptime];
    the two functions below give their results on strings whose digits are
    ASCII, and serve where a concrete page or date is evaluated. *)

Definition digit (c : N) : option Z :=
  if ((48 <=? c) && (c <=? 57))%N then Some (Z.of_N c - 48) else None.

(** The value of a run of digits, most significant first. *)
Fixpoint digits_value (acc : Z) (s : str) : option Z :=
  match s with
  | [] => Some acc
  | c :: r =>
      match digit c with
      | Some d => digits_value (10 * acc + d) r
      | None => None
      end
  end.

(** [int(s)] for an optional sign followed by ASCII digits. *)
Definition int_decimal (s : str) : result Z :=
  let unsigned (t : str) : option Z :=
    match t with [] => None | _ => digits_value 0 t end in
  match s with
  | 45%N :: t => match unsigned t with Some z => Ok (- z) | None => Raise ValueError end
  | 43%N :: t => match unsigned t with Some z => Ok z | None => Raise ValueError end
  | _ => match unsigned s with Some z => Ok z | None => Raise ValueError end
  end.

Module Strptime.

(** The format is turned into a pattern: a directive, a run of white space
    (one or more white-space characters of the input), or a character that
    stands for itself. *)
Inductive item : Type :=
| Directive (key : N)
| Whitespace
| Literal (c : N).

Fixpoint items (format : str) : list item :=
  match format with
  | [] => []
  | 37%N :: key :: rest => Directive key :: items rest
  | c :: rest =>
      if isspace c then
        match items rest with
        | Whitespace :: more => Whitespace :: more
        | more => Whitespace :: more
        end
      else Literal c :: items rest
  end.

(** One alternative of a directive: the class of each character it takes. *)
Definition between (lo hi : N) (c : N) : bool := ((lo <=? c) && (c <=? hi))%N.
Definition d09 := between 48 57.

(** The alternatives of the numeric directives, in the order in which they
    are tried: [%Y] four digits; [%m] 1[0-2], 0[1-9], [1-9]; [%d] 3[0-1],
    [1-2]\d, 0[1-9], [1-9], space [1-9]; [%H] 2[0-3], [0-1]\d, \d;
    [%M] [0-5]\d, \d; [%S] 6[0-1], [0-5]\d, \d. *)
Definition alternatives (key : N) : option (list (list (N -> bool))) :=
  if (key =? 89)%N then Some [[d09; d09; d09; d09]]
  else if (key =? 109)%N then
    Some [[between 49 49; between 48 50]; [between 48 48; between 49 57]; [between 49 57]]
  else if (key =? 100)%N then
    Some [[between 51 51; between 48 49]; [between 49 50; d09];
          [between 48 48; between 49 57]; [between 49 57];
          [between 32 32; between 49 57]]
  else if (key =? 72)%N then
    Some [[between 50 50; between 48 51]; [between 48 49; d09]; [d09]]
  else if (key =? 77)%N then Some [[between 48 53; d09]; [d09]]
  else if (key =? 83)%N then Some [[between 54 54; between 48 49]; [between 48 53; d09]; [d09]]
  else None.

(** Take one character per class; the text taken and the rest. *)
Fixpoint take_classes (classes : list (N -> bool)) (s : str) : option (str * str) :=
  match classes, s with
  | [], _ => Some ([], s)
  | p :: ps, c :: r =>
      if p c then
        match take_classes ps r with
        | Some (m, rest) => Some (c :: m, rest)
        | None => None
        end
      else None
  | _ :: _, [] => None
  end.

(** The ways of leaving a run of white space, the longest run first. *)
Fixpoint after_spaces (s : str) : list str :=
  match s with
  | c :: r => if isspace c then after_spaces r ++ [r] else []
  | [] => []
  end.

(** All the matches of the pattern at the start of [s], in the order in
    which a backtracking search finds them: the fields read and the text
    left over. *)
Fixpoint matches (pattern : list item) (s : str) : list (list (N * str) * str) :=
  match pattern with
  | [] => [([], s)]
  | Directive key :: more =>
      match alternatives key with
      | None => []
      | Some alts =>
          flat_map (fun classes =>
                      match take_classes classes s with
                      | Some (m, rest) =>
                          map (fun fr => ((key, m) :: fst fr, snd fr)) (matches more rest)
                      | None => []
                      end) alts
      end
  | Whitespace :: more => flat_map (matches more) (after_spaces s)
  | Literal c :: more =>
      match s with
      | c' :: rest => if N.eqb c c' then matches more rest else []
      | [] => []
      end
  end.

Fixpoint field_value (key : N) (default : Z) (fields : list (N * str)) : Z :=
  match fields with
  | [] => default
  | (k, m) :: rest =>
      if N.eqb k key
      then match digits_value 0 (lstrip m) with Some z => z | None => default end
      else field_value key default rest
  end.

Definition is_leap (y : Z) : bool :=
  (y mod 4 =? 0) && (negb (y mod 100 =? 0) || (y mod 400 =? 0)).

Definition days_in_month (y m : Z) : Z :=
  if m =? 2 then (if is_leap y then 29 else 28)
  else if (m =? 4) || (m =? 6) || (m =? 9) || (m =? 11) then 30
  else 31.

(** [datetime.datetime.strptime(date_string, format)] for formats made of
    the six numeric directives, white space and caseless characters: the
    first match of the pattern must use up the string, and the fields must
    form a date and a time of day. *)
Definition strptime (date_string format : str) : result datetime :=
  let pattern := items format in
  if forallb (fun i => match i with
                       | Directive key => bool_decide (is_Some (alternatives key))
                       | _ => true
                       end) pattern
  then
    match matches pattern date_string with
    | (fields, []) :: _ =>
        let y := field_value 89 1900 fields in
        let m := field_value 109 1 fields in
        let d := field_value 100 1 fields in
        let S := field_value 83 0 fields in
        if (1 <=? y) && (d <=? days_in_month y m) && (S <=? 59)
        then Ok {| year := y; month := m; day := d;
                   hour := field_value 72 0 fields;
                   minute := field_value 77 0 fields;
                   second := S |}
        else Raise ValueError
    | _ => Raise ValueError
    end
  else Raise ValueError.

End Strptime.

(** ** CorpusManager._validate_dataset *)

(** What [stat] and [iterdir] see at a path: nothing, something that is not
    a directory, or a directory with its entries (name and size in bytes),
    in the order in which the directory lists them. *)
Record dir_entry : Type := { name : str; st_size : Z }.

Inductive path_state : Type :=
| Missing
| NotDirectory
| Directory (entries : list dir_entry).

Definition endswith (suffix s : str) : bool := startswith (rev suffix) (rev s).

(** [path.glob('*' + suffix)] *)
Definition glob (suffix : str) (entries : list dir_entry) : list dir_entry :=
  List.filter (fun e => endswith suffix (name e)) entries.

(** [l.sort(key=key)]: ascending, keeping the order of equal keys. *)
Fixpoint insert_by {A : Type} (key : A -> Z) (x : A) (l : list A) : list A :=
  match l with
  | [] => [x]
  | y :: r => if key x <=? key y then x :: y :: r else y :: insert_by key x r
  end.

Definition sort_by {A : Type} (key : A -> Z) (l : list A) : list A :=
  fold_right (insert_by key) [] l.

Module CorpusManager.
Section Validate.
(** [get_article_id_from_filepath] of [core_utils.article] is not among the
    sources: it gives the integer id embedded in the name of an artifact. *)
Variable get_article_id_from_filepath : str -> Z.

Definition article_id (e : dir_entry) : Z := get_article_id_from_filepath (name e).

(** The [for index, (meta, raw) in enumerate(zip(metas, raws))] loop, from
    position [index] on. *)
Fixpoint check_pairs (index : Z) (pairs : list (dir_entry * dir_entry)) : result unit :=
  match pairs with
  | [] => Ok tt
  | (meta, raw) :: rest =>
      (unless negb (index + 1 =? article_id meta)
              || negb (index + 1 =? article_id raw)
              || (st_size meta =? 0) || (st_size raw =? 0)
         raise InconsistentDatasetError in
       check_pairs (index + 1) rest)%py
  end.

Definition _validate_dataset (path_to_raw_txt_data : path_state) : result unit :=
  match path_to_raw_txt_data with
  | Missing => Raise FileNotFoundError
  | NotDirectory => Raise NotADirectoryError
  | Directory entries =>
      (unless match entries with [] => true | _ => false end
         raise EmptyDirectoryError in
       let metas := glob (lit "_meta.json") entries in
       let raws := glob (lit "_raw.txt") entries in
       unless negb (length metas =? length raws)%nat raise InconsistentDatasetError in
       let metas := sort_by article_id metas in
       let raws := sort_by article_id raws in
       check_pairs 0 (combine metas raws))%py
  end.

(** [from_raw] of [core_utils.article.io] and the class [Article] are not
    among the sources: [from_raw path article_id] stands for the object that
    [from_raw(path=file, article=Article(url=None, article_id=article_id))]
    gives. *)
Variable Stored : Type.
Variable from_raw : str -> Z -> Stored.

(** The dictionary comprehension of [_scan_dataset], over the raw files in
    the order of the listing: a later file takes the place of an earlier one
    with the same id. Nothing matches under a path that is no directory. *)
Definition _scan_dataset (path_to_raw_txt_data : path_state) : gmap Z Stored :=
  match path_to_raw_txt_data with
  | Directory entries =>
      fold_left (fun storage file =>
                   <[article_id file := from_raw (name file) (article_id file)]> storage)
                (glob (lit "_raw.txt") entries) ∅
  | _ => ∅
  end.

Record CorpusManager : Type := {
  path_to_raw_txt_data : path_state;
  _storage : gmap Z Stored
}.

Definition __init__ (path_to_raw_txt_data : path_state) : result CorpusManager :=
  (let* _ := _validate_dataset path_to_raw_txt_data in
   Ok {| path_to_raw_txt_data := path_to_raw_txt_data;
         _storage := _scan_dataset path_to_raw_txt_data |})%py.

Definition get_articles (self : CorpusManager) : gmap Z Stored := _storage self.

End Validate.
End CorpusManager.

(** ** prepare_environment

    What is at [base_path]: nothing (the directories above it can be made),
    something that is not a directory, or a directory with its children. A
    child is a directory itself or something [unlink] removes (a file, a
    link). *)

Record child : Type := { child_name : str; child_is_dir : bool }.

Inductive base_path_state : Type :=
| Absent
| NotADir
| Dir (children : list child).

(** The call returned, or raised an [OSError] ([FileExistsError] from
    [mkdir], the error of [unlink] on a directory); in both cases with what
    is at the path afterwards. *)
Inductive prepared : Type :=
| Returned (after : base_path_state)
| RaisedOSError (after : base_path_state).

(** The [for file in base_path.iterdir()] loop. *)
Fixpoint unlink_all (children : list child) : prepared :=
  match children with
  | [] => Returned (Dir [])
  | file :: rest =>
      if child_is_dir file then RaisedOSError (Dir (file :: rest))
      else unlink_all rest
  end.

Definition prepare_environment (base_path : base_path_state) : prepared :=
  match base_path with
  | Absent => unlink_all []
  | NotADir => RaisedOSError NotADir
  | Dir children => unlink_all children
  end.

(** ** Inputs used in the examples *)

Module Examples.

(** A configuration document with the given seed URLs, article count and
    timeout, the other fields being well formed. *)
Definition document (seed_urls total timeout : pyval) : pyval :=
  PyDict (<[lit "seed_urls" := seed_urls]>
          (<[lit "total_articles_to_find_and_parse" := total]>
          (<[lit "headers" := PyDict ∅]>
          (<[lit "encoding" := PyStr (lit "utf-8")]>
          (<[lit "timeout" := timeout]>
          (<[lit "should_verify_certificate" := PyBool true]>
          (<[lit "headless_mode" := PyBool false]> ∅))))))).

Definition seeds : pyval := PyList [PyStr (lit "https://example.org/news?page=0")].

Definition configuration : Config :=
  {| _seed_urls := [lit "https://example.org/news?page=0"];
     _num_articles := 10;
     _headers := ∅;
     _encoding := lit "utf-8";
     _timeout := 1;
     _should_verify_certificate := true;
     _headless_mode := false |}.

(** [<a hreflang="ru" href=...>Подробнее</a>] *)
Definition more_link (href : str) : node :=
  Tag (lit "a") [(lit "hreflang", AttrStr (lit "ru")); (lit "href", AttrStr href)]
      [NavigableString marker].

Definition document_root (contents : list node) : node :=
  Tag (lit "[document]") [] contents.

(** A listing page with three links to articles. *)
Definition page_three_links : node :=
  document_root
    [Tag (lit "div") []
       [more_link (lit "/news/first"); more_link (lit "/news/second");
        more_link (lit "/news/third")]].

(** A listing page whose only marked link has no [href]. *)
Definition page_link_without_href : node :=
  document_root
    [Tag (lit "a") [(lit "hreflang", AttrStr (lit "ru"))] [NavigableString marker]].

(** A listing page without any marked link: one anchor in another language,
    one in the right language with another text. *)
Definition page_no_link : node :=
  document_root
    [Tag (lit "a") [(lit "hreflang", AttrStr (lit "en")); (lit "href", AttrStr (lit "/news/x"))]
       [NavigableString marker];
     Tag (lit "a") [(lit "hreflang", AttrStr (lit "ru")); (lit "href", AttrStr (lit "/news/y"))]
       [NavigableString (lit "next")]].

(** A page whose pager gives [href] as the link of its last item. *)
Definition page_with_pager (href : str) : node :=
  document_root
    [Tag (lit "ul") []
       [Tag (lit "li") [(lit "class", AttrList [lit "pager__item"; lit "pager__item--last"])]
          [Tag (lit "a") [(lit "href", AttrStr href)] [NavigableString (lit "last")]]]].

(** An article page whose publication date is [datetime_text]. *)
Definition article_page (datetime_text : str) : node :=
  document_root
    [Tag (lit "h1") [(lit "itemprop", AttrStr (lit "headline"))]
       [NavigableString (lit "Headline")];
     Tag (lit "time") [(lit "itemprop", AttrStr (lit "datePublished"));
                       (lit "datetime", AttrStr datetime_text)] [];
     Tag (lit "p") [] [NavigableString (lit "Body")]].

(** The parser of the examples: the text of a response names the page. *)
Definition soup_of (markup features : str) : node :=
  if str_eqb markup (lit "three links") then page_three_links
  else if str_eqb markup (lit "link without href") then page_link_without_href
  else if str_eqb markup (lit "no link") then page_no_link
  else if str_eqb markup (lit "pager 5") then page_with_pager (lit "5")
  else if str_eqb markup (lit "article, bad date") then article_page (lit "May 1, 2023")
  else document_root [].

(** A site that answers every request with the same status and text. *)
Definition constant_site (status : Z) (body : str) : network :=
  fun _ _ _ => Ok {| status_code := status; text := body |}.

(** A site whose start address (without page number) shows a pager with
    last page 5, and whose listing pages each show three links. *)
Definition paginated_site : network :=
  fun _ url _ =>
    if str_eqb url (lit "https://example.org/news?page=")
    then Ok {| status_code := 200; text := lit "pager 5" |}
    else Ok {| status_code := 200; text := lit "three links" |}.

Definition crawler : Crawler.Crawler :=
  {| Crawler.config := configuration; Crawler.urls := [];
     Crawler.url_pattern := lit "https://example.org/news" |}.

Definition crawler_recursive : CrawlerRecursive.CrawlerRecursive :=
  {| CrawlerRecursive.base := crawler; CrawlerRecursive.inforced_stop := false;
     CrawlerRecursive.start_url := lit "https://example.org/news?page=" |}.

(** Sinks that accept every record, on a store that keeps nothing. *)
Definition accept (a : Article.Article) (store : unit) : result unit * unit := (Ok tt, store).

(** The id of an artifact named [<digits>_...]. *)
Definition id_of_name (n : str) : Z :=
  match digits_value 0 (split_head 95 n) with
  | Some z => z
  | None => 0
  end.

Definition file (n : string) (size : Z) : dir_entry := {| name := lit n; st_size := size |}.

Definition dataset_matched : path_state :=
  Directory [file "2_raw.txt" 40; file "1_meta.json" 12; file "3_meta.json" 12;
             file "1_raw.txt" 40; file "3_raw.txt" 40; file "2_meta.json" 12].

Definition dataset_meta_gap : path_state :=
  Directory [file "1_raw.txt" 40; file "2_raw.txt" 40; file "3_raw.txt" 40;
             file "1_meta.json" 12; file "2_meta.json" 12; file "4_meta.json" 12].

End Examples.

(** ** Further inputs used in the examples *)

Module MoreExamples.

(** An article page with a headline, a date, a paragraph, two [strong]
    elements and a topic container with two links. *)
Definition full_article_page : node :=
  Examples.document_root
    [Tag (lit "h1") [(lit "itemprop", AttrStr (lit "headline"))]
       [NavigableString (lit "Headline")];
     Tag (lit "time") [(lit "itemprop", AttrStr (lit "datePublished"));
                       (lit "datetime", AttrStr (lit "2023-05-01 12:00:00"))] [];
     Tag (lit "p") [] [NavigableString (lit "Body")];
     Tag (lit "strong") [] [NavigableString (lit "Photo")];
     Tag (lit "strong") [] [NavigableString (lit "Ann Author")];
     Tag (lit "div")
       [(lit "class",
         AttrList [lit "field"; lit "field--name-field-tegi";
                   lit "field--type-entity-reference"; lit "field--label-hidden";
                   lit "field__items"])]
       [Tag (lit "a") [(lit "href", AttrStr (lit "/tags/1"))] [NavigableString (lit "Politics")];
        Tag (lit "a") [(lit "href", AttrStr (lit "/tags/2"))] [NavigableString (lit "City")]]].

(** The record that the parser makes of it for the id 7. *)
Definition full_article_record : Article.Article :=
  {| Article.url := lit "https://example.org/news/first";
     Article.article_id := 7;
     Article.title := Assigned (Some (lit "Headline"));
     Article.text := Assigned (lit "Headline" ++ 10%N :: lit "Body");
     Article.date := Assigned {| year := 2023; month := 5; day := 1;
                                 hour := 12; minute := 0; second := 0 |};
     Article.author := Assigned [lit "Ann Author"];
     Article.topics := Assigned [Some (lit "Politics"); Some (lit "City")] |}.

(** An article page with comments. The headline has two children, a text
    and a comment; the first paragraph, the second [strong] element and the
    link of the topic container have a comment as their only child. *)
Definition commented_article_page : node :=
  Examples.document_root
    [Tag (lit "h1") [(lit "itemprop", AttrStr (lit "headline"))]
       [NavigableString (lit "Head"); Comment (lit "x")];
     Tag (lit "time") [(lit "itemprop", AttrStr (lit "datePublished"));
                       (lit "datetime", AttrStr (lit "2023-05-01 12:00:00"))] [];
     Tag (lit "p") [] [Comment (lit "hidden")];
     Tag (lit "p") [] [NavigableString (lit "Body")];
     Tag (lit "strong") [] [NavigableString (lit "Photo")];
     Tag (lit "strong") [] [Comment (lit "editor")];
     Tag (lit "div")
       [(lit "class",
         AttrList [lit "field"; lit "field--name-field-tegi";
                   lit "field--type-entity-reference"; lit "field--label-hidden";
                   lit "field__items"])]
       [Tag (lit "a") [(lit "href", AttrStr (lit "/tags/1"))] [Comment (lit "tag")]]].

(** The record that the parser makes of it for the id 7: no title, and the
    comments that are the string of their tag in the text, the author and
    the topics. *)
Definition commented_article_record : Article.Article :=
  {| Article.url := lit "https://example.org/news/first";
     Article.article_id := 7;
     Article.title := Assigned None;
     Article.text := Assigned (lit "None" ++ 10%N :: lit "hidden" ++ 10%N :: lit "Body");
     Article.date := Assigned {| year := 2023; month := 5; day := 1;
                                 hour := 12; minute := 0; second := 0 |};
     Article.author := Assigned [lit "editor"];
     Article.topics := Assigned [Some (lit "tag")] |}.

(** A listing page whose only link of the right language has the marker in
    a comment, not in its text. *)
Definition page_marker_in_comment : node :=
  Examples.document_root
    [Tag (lit "a") [(lit "hreflang", AttrStr (lit "ru")); (lit "href", AttrStr (lit "/news/z"))]
       [Comment marker; NavigableString (lit "next")]].

(** A directory whose second child is a directory itself. *)
Definition assets_with_subdirectory : base_path_state :=
  Dir [{| child_name := lit "1_raw.txt"; child_is_dir := false |};
       {| child_name := lit "old"; child_is_dir := true |};
       {| child_name := lit "1_meta.json"; child_is_dir := false |}].

End MoreExamples.

(** ** Vocabulary of the statements *)

(** The call returned, it did not raise. *)
Definition returns {A : Type} (r : result A) : Prop := exists a, r = Ok a.

(** The three parts of what a run gives back. *)
Definition outcome {A S L : Type} (x : result A * S * L) : result A := fst (fst x).
Definition state_of {A S L : Type} (x : result A * S * L) : S := snd (fst x).
Definition log_of {A S L : Type} (x : result A * S * L) : L := snd x.

(** The ids 1, 2, ..., n. *)
Definition one_to (n : nat) : list Z := map Z.of_nat (seq 1 n).

(** The ids index+1, index+2, ..., index+n. *)
Definition ids_after (index : Z) (n : nat) : list Z :=
  map (fun j => index + Z.of_nat j) (seq 1 n).

(** The configuration of a paginated crawler. *)
Definition configuration_of (self : CrawlerRecursive.CrawlerRecursive) : Config :=
  Crawler.config (CrawlerRecursive.base self).

(** The address of the listing page of a given index. *)
Definition page_url (self : CrawlerRecursive.CrawlerRecursive) (num : Z) : str :=
  CrawlerRecursive.start_url self ++ str_of_int num.


(** [conf] is a dictionary that holds these values under the seven keys
    that validation reads. *)
Definition holds (conf seed_urls total headers encoding verify headless timeout : pyval)
    : Prop :=
  getitem conf (lit "seed_urls") = Ok seed_urls
  /\ getitem conf (lit "total_articles_to_find_and_parse") = Ok total
  /\ getitem conf (lit "headers") = Ok headers
  /\ getitem conf (lit "encoding") = Ok encoding
  /\ getitem conf (lit "should_verify_certificate") = Ok verify
  /\ getitem conf (lit "headless_mode") = Ok headless
  /\ getitem conf (lit "timeout") = Ok timeout.

(** A list of strings that all begin with [https://]. *)
Definition secure_urls (v : pyval) : Prop :=
  exists l : list str,
    v = PyList (map PyStr l) /\ Forall (fun u => startswith (lit "https://") u = true) l.

(** Headers, encoding and the two flags pass their checks. *)
Definition plain_fields_valid (headers encoding verify headless : pyval) : Prop :=
  isinstance_dict headers = true /\ isinstance_str encoding = true
  /\ isinstance_bool verify = true /\ isinstance_bool headless = true.

(** An integer strictly between 0 and 60, an integer being an instance of
    [int]: the JSON booleans are such instances, with values 1 and 0. *)
Definition integer_strictly_between_0_and_60 (v : pyval) : Prop :=
  isinstance_int v = true /\ 0 < int_value v < 60.

(** The seven keys that validation reads. *)
Definition required_keys : list str :=
  [lit "seed_urls"; lit "total_articles_to_find_and_parse"; lit "headers";
   lit "encoding"; lit "should_verify_certificate"; lit "headless_mode"; lit "timeout"].

(** The strings of the paragraphs that have one, in document order. *)
Definition paragraph_strings (article_soup : node) : list str :=
  flat_map (fun text_block =>
              match string_of text_block with
              | None | Some [] => []
              | Some s => [s]
              end) (findAll (Some (lit "p")) [] article_soup).

(** Sinks that keep the list of the calls made to them. *)
Inductive sink : Type := ToRaw | ToMeta.

Definition record_call (s : sink) (a : Article.Article) (calls : list (sink * Article.Article))
    : result unit * list (sink * Article.Article) :=
  (Ok tt, calls ++ [(s, a)]).

(** Which sink was called, for which URL, with which id. *)
Definition call_summary (c : sink * Article.Article) : sink * str * Z :=
  (fst c, Article.url (snd c), Article.article_id (snd c)).

(** The calls due for the URLs at positions [index], [index]+1, ...: each
    record goes to [to_raw], then to [to_meta], with the id position + 1. *)
Fixpoint expected_calls (index : Z) (urls : list str) : list (sink * str * Z) :=
  match urls with
  | [] => []
  | url :: rest =>
      (ToRaw, url, index + 1) :: (ToMeta, url, index + 1) :: expected_calls (index + 1) rest
  end.

(** * Properties *)

(** ** Sanity checks of the embedding on concrete inputs *)

Example str_of_int_examples :
  str_of_int 0 = lit "0" /\ str_of_int 12 = lit "12" /\ str_of_int (-3) = lit "-3".
Proof. repeat split. Qed.

Example range_example : range 0 5 = [0; 1; 2; 3; 4] /\ range 0 (-2) = [].
Proof. split; reflexivity. Qed.

Example strip_example :
  strip (lit "  read more ") = lit "read more" /\ strip (lit "   ") = [].
Proof. split; reflexivity. Qed.

Example crawler_init_example :
  Crawler.__init__ Examples.configuration = Ok Examples.crawler
  /\ CrawlerRecursive.__init__ Examples.configuration = Ok Examples.crawler_recursive.
Proof. split; reflexivity. Qed.

Example extract_url_three_links :
  Crawler._extract_url Examples.crawler Examples.page_three_links
  = Ok (lit "https://example.org/news/first").
Proof. vm_compute. reflexivity. Qed.

Example three_links_give_ten_entries :
  Crawler.urls
    (state_of (Crawler.find_articles Examples.soup_of
                 (Examples.constant_site 200 (lit "three links")) Examples.crawler []))
  = repeat (lit "https://example.org/news/first") 10.
Proof. vm_compute. reflexivity. Qed.

Example comments_in_strings :
  string_of (Tag (lit "p") [] [Comment (lit "hidden")]) = Some (lit "hidden")
  /\ string_of (Tag (lit "h1") [] [NavigableString (lit "Head"); Comment (lit "x")]) = None
  /\ string_of (Tag (lit "p") [] [Tag (lit "b") [] [Comment (lit "deep")]]) = Some (lit "deep")
  /\ stripped_strings (Tag (lit "a") [] [Comment marker; NavigableString (lit " next ")])
     = [lit "next"]
  /\ Forall (fun link => Crawler.marked link = false)
            (Crawler.links MoreExamples.page_marker_in_comment)
  /\ Crawler._extract_url Examples.crawler MoreExamples.page_marker_in_comment
     = Ok (lit "https://example.org/news").
Proof.
  split; [reflexivity|]. split; [reflexivity|]. split; [reflexivity|].
  split; [vm_compute; reflexivity|].
  split; [|vm_compute; reflexivity].
  apply List.Forall_cons; [vm_compute; reflexivity | apply List.Forall_nil].
Qed.

Example commented_article_parsed :
  HTMLParser.parse (fun _ _ => MoreExamples.commented_article_page)
    (Examples.constant_site 200 []) Strptime.strptime
    (HTMLParser.__init__ (lit "https://example.org/news/first") 7 Examples.configuration) []
  = (Ok MoreExamples.commented_article_record, [lit "https://example.org/news/first"]).
Proof. vm_compute. reflexivity. Qed.

Example pager_example :
  CrawlerRecursive.read_last_page int_decimal (Examples.page_with_pager (lit "5")) = Ok 5
  /\ CrawlerRecursive.read_last_page int_decimal (Examples.page_with_pager (lit "?page=5"))
     = Raise ValueError.
Proof. split; vm_compute; reflexivity. Qed.

Example strptime_examples :
  Strptime.strptime (lit "2023-5-1  1:2:3") (lit "%Y-%m-%d %H:%M:%S")
  = Ok {| year := 2023; month := 5; day := 1; hour := 1; minute := 2; second := 3 |}
  /\ Strptime.strptime (lit "2023-02-29 12:00:00") (lit "%Y-%m-%d %H:%M:%S") = Raise ValueError
  /\ Strptime.strptime (lit "2023-05-01 12:00:00 ") (lit "%Y-%m-%d %H:%M:%S") = Raise ValueError
  /\ Strptime.strptime (lit "2023-05-01T12:00:00") (lit "%Y-%m-%d %H:%M:%S") = Raise ValueError.
Proof. repeat split; vm_compute; reflexivity. Qed.

(** ** Config validation *)

Lemma secure_urls_accepted (v : pyval) :
  secure_urls v -> seed_urls_accepted v = Ok true.
Proof.
  intros [l [-> Hall]]. unfold seed_urls_accepted.
  induction Hall as [|u l Hu _ IH]; [reflexivity|].
  cbn [map all_match_https re_match_https rbind]. rewrite Hu. exact IH.
Qed.

(** After well-formed seed URLs, validation is decided by the remaining
    checks, in the order of the source. *)
Lemma validate_after_seed_urls conf seed_urls total headers encoding verify headless timeout :
  holds conf seed_urls total headers encoding verify headless timeout ->
  seed_urls_accepted seed_urls = Ok true ->
  _validate_config_content conf =
    (unless negb (isinstance_int total) || (int_value total <? 0) || isinstance_bool total
       raise IncorrectNumberOfArticlesError in
     unless (int_value total >? 150) || (int_value total <? 1)
       raise NumberOfArticlesOutOfRangeError in
     unless negb (isinstance_dict headers) raise IncorrectHeadersError in
     unless negb (isinstance_str encoding) raise IncorrectEncodingError in
     unless negb (isinstance_bool verify) raise IncorrectVerifyError in
     unless negb (isinstance_bool headless) raise IncorrectVerifyError in
     unless negb (isinstance_int timeout)
            || (int_value timeout >=? 60) || (int_value timeout <=? 0)
       raise IncorrectTimeoutError in
     Ok tt)%py.
Proof.
  intros (Hs & Hn & Hh & He & Hv & Hl & Ht) Hacc.
  unfold _validate_config_content.
  rewrite Hs, Hn, Hh, He, Hv, Hl, Ht. cbn [rbind]. rewrite Hacc. cbn [rbind negb].
  repeat match goal with |- context [if ?c then _ else _] => destruct c; try reflexivity end.
Qed.

(** With well-formed seed URLs the outcome only depends on the count once
    the count fails a check. *)
Lemma validate_count conf seed_urls total headers encoding verify headless timeout :
  holds conf seed_urls total headers encoding verify headless timeout ->
  secure_urls seed_urls ->
  forall n, total = PyInt n ->
  (n < 0 -> _validate_config_content conf = Raise IncorrectNumberOfArticlesError)
  /\ (0 <= n < 1 \/ 150 < n ->
      _validate_config_content conf = Raise NumberOfArticlesOutOfRangeError)
  /\ (1 <= n <= 150 ->
      _validate_config_content conf =
        (unless negb (isinstance_dict headers) raise IncorrectHeadersError in
         unless negb (isinstance_str encoding) raise IncorrectEncodingError in
         unless negb (isinstance_bool verify) raise IncorrectVerifyError in
         unless negb (isinstance_bool headless) raise IncorrectVerifyError in
         unless negb (isinstance_int timeout)
                || (int_value timeout >=? 60) || (int_value timeout <=? 0)
           raise IncorrectTimeoutError in
         Ok tt)%py).
Proof.
  intros Hf Hs n ->.
  rewrite (validate_after_seed_urls _ _ _ _ _ _ _ _ Hf (secure_urls_accepted _ Hs)).
  cbn [isinstance_int isinstance_bool int_value negb orb].
  repeat split; intros Hn.
  - destruct (Z.ltb_spec n 0); [reflexivity | lia].
  - destruct (Z.ltb_spec n 0); [lia|].
    rewrite Z.gtb_ltb.
    destruct (Z.ltb_spec 150 n); [reflexivity|].
    destruct (Z.ltb_spec n 1); [reflexivity | lia].
  - destruct (Z.ltb_spec n 0); [lia|].
    rewrite Z.gtb_ltb.
    destruct (Z.ltb_spec 150 n); [lia|].
    destruct (Z.ltb_spec n 1); [lia | reflexivity].
Qed.

Lemma timeout_check (timeout : pyval) :
  negb (isinstance_int timeout) || (int_value timeout >=? 60) || (int_value timeout <=? 0)
  = false <-> integer_strictly_between_0_and_60 timeout.
Proof.
  unfold integer_strictly_between_0_and_60.
  rewrite !orb_false_iff, negb_false_iff, Z.geb_leb, Z.leb_gt, Z.leb_gt. intuition lia.
Qed.

Ltac concrete_fields := repeat split; vm_compute; reflexivity.

Ltac secure_urls_here l :=
  exists l; split; [reflexivity | repeat constructor].

(** C1 (amended). With well-formed seed URLs, a document whose total
    article count is the integer 0 is rejected with
    NumberOfArticlesOutOfRangeError (the out-of-range kind), as is every
    count above 150, 151 among them; only a negative integer count is
    rejected with IncorrectNumberOfArticlesError; and for a count from 1 to
    150, the bounds included, validation succeeds when the other fields are
    valid. *)
Theorem article_count_boundaries
    conf seed_urls headers encoding verify headless timeout (n : Z) :
  holds conf seed_urls (PyInt n) headers encoding verify headless timeout ->
  secure_urls seed_urls ->
  (n = 0 \/ 150 < n ->
   _validate_config_content conf = Raise NumberOfArticlesOutOfRangeError)
  /\ (n < 0 -> _validate_config_content conf = Raise IncorrectNumberOfArticlesError)
  /\ (1 <= n <= 150 ->
      plain_fields_valid headers encoding verify headless ->
      integer_strictly_between_0_and_60 timeout ->
      _validate_config_content conf = Ok tt).
Proof.
  intros Hf Hs.
  destruct (validate_count _ _ _ _ _ _ _ _ Hf Hs n eq_refl) as (Hneg & Hout & Hin).
  split; [|split].
  - intros Hn. apply Hout. lia.
  - exact Hneg.
  - intros Hn (Hh & He & Hv & Hl) Ht. rewrite (Hin Hn), Hh, He, Hv, Hl.
    apply timeout_check in Ht. cbn [negb]. rewrite Ht. reflexivity.
Qed.

Lemma article_count_boundaries_witness :
  _validate_config_content (Examples.document Examples.seeds (PyInt 0) (PyInt 5))
    = Raise NumberOfArticlesOutOfRangeError
  /\ _validate_config_content (Examples.document Examples.seeds (PyInt 151) (PyInt 5))
    = Raise NumberOfArticlesOutOfRangeError
  /\ _validate_config_content (Examples.document Examples.seeds (PyInt 1) (PyInt 5)) = Ok tt
  /\ _validate_config_content (Examples.document Examples.seeds (PyInt 150) (PyInt 5)) = Ok tt.
Proof.
  assert (Hs : secure_urls Examples.seeds)
    by secure_urls_here [lit "https://example.org/news?page=0"].
  assert (Hp : plain_fields_valid (PyDict ∅) (PyStr (lit "utf-8")) (PyBool true) (PyBool false))
    by (repeat split).
  assert (Ht : integer_strictly_between_0_and_60 (PyInt 5))
    by (split; [reflexivity | simpl; lia]).
  split; [|split; [|split]].
  - apply (article_count_boundaries _ Examples.seeds (PyDict ∅) (PyStr (lit "utf-8"))
             (PyBool true) (PyBool false) (PyInt 5) 0); [concrete_fields | exact Hs | lia].
  - apply (article_count_boundaries _ Examples.seeds (PyDict ∅) (PyStr (lit "utf-8"))
             (PyBool true) (PyBool false) (PyInt 5) 151); [concrete_fields | exact Hs | lia].
  - apply (article_count_boundaries _ Examples.seeds (PyDict ∅) (PyStr (lit "utf-8"))
             (PyBool true) (PyBool false) (PyInt 5) 1);
      [concrete_fields | exact Hs | lia | exact Hp | exact Ht].
  - apply (article_count_boundaries _ Examples.seeds (PyDict ∅) (PyStr (lit "utf-8"))
             (PyBool true) (PyBool false) (PyInt 5) 150);
      [concrete_fields | exact Hs | lia | exact Hp | exact Ht].
Defined.

(** The count 0 on an otherwise valid document: the error raised is the
    out-of-range one, not IncorrectNumberOfArticlesError. *)
Lemma count_zero_raises_out_of_range :
  _validate_config_content (Examples.document Examples.seeds (PyInt 0) (PyInt 5))
    = Raise NumberOfArticlesOutOfRangeError
  /\ _validate_config_content (Examples.document Examples.seeds (PyInt 0) (PyInt 5))
    <> Raise IncorrectNumberOfArticlesError.
Proof. split; [vm_compute; reflexivity | vm_compute; discriminate]. Qed.

(** What [all] answers on a list of strings. *)
Lemma all_match_https_strings (l : list str) :
  all_match_https (map PyStr l)
  = Ok (forallb (startswith (lit "https://")) l).
Proof.
  induction l as [|u l IH]; [reflexivity|].
  cbn [map all_match_https re_match_https rbind forallb].
  destruct (startswith (lit "https://") u); [exact IH | reflexivity].
Qed.

Lemma getitem_raises conf key e :
  getitem conf key = Raise e -> e = KeyError \/ e = TypeError.
Proof.
  unfold getitem. destruct conf; try (intros [= <-]; auto).
  destruct (d !! key); intros [= <-]; auto.
Qed.

(** Once the seed URLs are accepted, no later check raises the seed-URL
    error. *)
Lemma accepted_never_seed_error conf seed_urls :
  getitem conf (lit "seed_urls") = Ok seed_urls ->
  seed_urls_accepted seed_urls = Ok true ->
  _validate_config_content conf <> Raise IncorrectSeedURLError.
Proof.
  intros Hs Hacc. unfold _validate_config_content.
  rewrite Hs. cbn [rbind]. rewrite Hacc. cbn [rbind negb].
  repeat match goal with
         | |- context [getitem conf ?k] =>
             let H := fresh "Hget" in
             destruct (getitem conf k) eqn:H; cbn [rbind];
             [| apply getitem_raises in H; destruct H as [-> | ->]; discriminate]
         | |- context [if ?c then _ else _] => destruct c
         end; discriminate.
Qed.

(** C2 (amended). Validation fails with IncorrectSeedURLError whenever the
    seed-URL field is not a list, and, when it is a list of strings, exactly
    when one of them does not begin with "https://"; in particular the empty
    list is accepted by this check: validation of a document with no seed
    URL never fails with IncorrectSeedURLError. *)
Theorem seed_urls_rejection conf seed_urls :
  getitem conf (lit "seed_urls") = Ok seed_urls ->
  (isinstance_list seed_urls = false ->
   _validate_config_content conf = Raise IncorrectSeedURLError)
  /\ (forall l : list str, seed_urls = PyList (map PyStr l) ->
      (_validate_config_content conf = Raise IncorrectSeedURLError
       <-> Exists (fun u => startswith (lit "https://") u = false) l))
  /\ (seed_urls = PyList [] ->
      _validate_config_content conf <> Raise IncorrectSeedURLError).
Proof.
  intros Hs. split; [|split].
  - intros Hl. unfold _validate_config_content. rewrite Hs. cbn [rbind].
    destruct seed_urls; cbn in Hl; try discriminate; reflexivity.
  - intros l ->. split.
    + intros Hraise.
      destruct (forallb (startswith (lit "https://")) l) eqn:Hall.
      * exfalso. revert Hraise. apply (accepted_never_seed_error _ _ Hs).
        unfold seed_urls_accepted. rewrite all_match_https_strings, Hall. reflexivity.
      * apply List.Exists_exists.
        assert (Hex : existsb (fun u => negb (startswith (lit "https://") u)) l = true).
        { clear -Hall. induction l as [|u l IH]; [discriminate|].
          cbn [forallb existsb] in *.
          destruct (startswith (lit "https://") u); cbn [negb andb orb] in *; auto. }
        apply existsb_exists in Hex. destruct Hex as (u & Hin & Hu).
        exists u. split; [exact Hin | now apply negb_true_iff].
    + intros Hex. unfold _validate_config_content. rewrite Hs. cbn [rbind].
      unfold seed_urls_accepted. rewrite all_match_https_strings. cbn [rbind].
      assert (Hall : forallb (startswith (lit "https://")) l = false).
      { clear -Hex. induction Hex as [u l Hu | u l _ IH]; cbn [forallb].
        - rewrite Hu. reflexivity.
        - rewrite IH. apply andb_false_r. }
      rewrite Hall. reflexivity.
  - intros ->. apply (accepted_never_seed_error _ _ Hs). reflexivity.
Qed.

Lemma seed_urls_rejection_witness :
  _validate_config_content (Examples.document (PyStr (lit "https://example.org")) (PyInt 5) (PyInt 5))
    = Raise IncorrectSeedURLError
  /\ _validate_config_content
       (Examples.document
          (PyList [PyStr (lit "https://example.org"); PyStr (lit "http://example.org")])
          (PyInt 5) (PyInt 5))
     = Raise IncorrectSeedURLError
  /\ _validate_config_content (Examples.document (PyList []) (PyInt 5) (PyInt 5))
     <> Raise IncorrectSeedURLError.
Proof.
  split; [|split].
  - apply (seed_urls_rejection _ (PyStr (lit "https://example.org")));
      [vm_compute; reflexivity | reflexivity].
  - refine (proj2 (proj1 (proj2 (seed_urls_rejection _
             (PyList [PyStr (lit "https://example.org"); PyStr (lit "http://example.org")]) _))
             [lit "https://example.org"; lit "http://example.org"] eq_refl) _);
      [vm_compute; reflexivity | ].
    apply List.Exists_cons_tl, List.Exists_cons_hd. reflexivity.
  - apply (seed_urls_rejection _ (PyList [])); [vm_compute; reflexivity | reflexivity].
Defined.

(** An empty list of seed URLs passes validation, and a list holding
    something that is not a string fails with a TypeError: neither fails
    with IncorrectSeedURLError. *)
Lemma empty_seed_urls_accepted :
  _validate_config_content (Examples.document (PyList []) (PyInt 5) (PyInt 5)) = Ok tt
  /\ _validate_config_content (Examples.document (PyList [PyInt 7]) (PyInt 5) (PyInt 5))
     = Raise TypeError.
Proof. split; vm_compute; reflexivity. Qed.

(** On a document whose other fields pass their checks, validation raises
    IncorrectTimeoutError exactly when the timeout is not an instance of
    [int] strictly between 0 and 60, and succeeds otherwise; so the timeouts
    0 and 60 fail, 1 and 59 succeed. The booleans are instances of [int]:
    the timeout check has no guard against them. *)
Theorem timeout_boundaries
    conf seed_urls total headers encoding verify headless timeout :
  holds conf seed_urls total headers encoding verify headless timeout ->
  secure_urls seed_urls ->
  (exists n, total = PyInt n /\ 1 <= n <= 150) ->
  plain_fields_valid headers encoding verify headless ->
  (_validate_config_content conf = Raise IncorrectTimeoutError
   <-> ~ integer_strictly_between_0_and_60 timeout)
  /\ (integer_strictly_between_0_and_60 timeout -> _validate_config_content conf = Ok tt)
  /\ (forall t, timeout = PyInt t ->
      (t = 0 \/ t = 60 -> _validate_config_content conf = Raise IncorrectTimeoutError)
      /\ (t = 1 \/ t = 59 -> _validate_config_content conf = Ok tt)).
Proof.
  intros Hf Hs (n & -> & Hn) (Hh & He & Hv & Hl).
  destruct (validate_count _ _ _ _ _ _ _ _ Hf Hs n eq_refl) as (_ & _ & Hin).
  rewrite (Hin Hn), Hh, He, Hv, Hl. cbn [negb].
  assert (Hok : integer_strictly_between_0_and_60 timeout ->
                (unless negb (isinstance_int timeout)
                        || (int_value timeout >=? 60) || (int_value timeout <=? 0)
                   raise IncorrectTimeoutError in Ok tt)%py = Ok tt).
  { intros Ht. apply timeout_check in Ht. rewrite Ht. reflexivity. }
  assert (Hbad : ~ integer_strictly_between_0_and_60 timeout ->
                 (unless negb (isinstance_int timeout)
                         || (int_value timeout >=? 60) || (int_value timeout <=? 0)
                    raise IncorrectTimeoutError in Ok tt)%py = Raise IncorrectTimeoutError).
  { intros Ht. rewrite <- timeout_check in Ht.
    destruct (negb (isinstance_int timeout)
              || (int_value timeout >=? 60) || (int_value timeout <=? 0));
      [reflexivity | congruence]. }
  split; [|split].
  - split.
    + intros Hraise Ht. rewrite (Hok Ht) in Hraise. discriminate.
    + exact Hbad.
  - exact Hok.
  - intros t ->. split; intros Ht.
    + apply Hbad. unfold integer_strictly_between_0_and_60. cbn [int_value]. lia.
    + apply Hok. unfold integer_strictly_between_0_and_60. cbn [int_value isinstance_int].
      split; [reflexivity | lia].
Qed.

Lemma timeout_boundaries_witness :
  _validate_config_content (Examples.document Examples.seeds (PyInt 5) (PyInt 0))
    = Raise IncorrectTimeoutError
  /\ _validate_config_content (Examples.document Examples.seeds (PyInt 5) (PyInt 1)) = Ok tt
  /\ _validate_config_content (Examples.document Examples.seeds (PyInt 5) (PyInt 59)) = Ok tt
  /\ _validate_config_content (Examples.document Examples.seeds (PyInt 5) (PyInt 60))
    = Raise IncorrectTimeoutError.
Proof.
  assert (Hs : secure_urls Examples.seeds)
    by secure_urls_here [lit "https://example.org/news?page=0"].
  assert (Hn : exists n, PyInt 5 = PyInt n /\ 1 <= n <= 150)
    by (exists 5; split; [reflexivity | lia]).
  assert (Hp : plain_fields_valid (PyDict ∅) (PyStr (lit "utf-8")) (PyBool true) (PyBool false))
    by (split; [|split; [|split]]; reflexivity).
  assert (H : forall t,
             (t = 0 \/ t = 60 ->
              _validate_config_content (Examples.document Examples.seeds (PyInt 5) (PyInt t))
              = Raise IncorrectTimeoutError)
             /\ (t = 1 \/ t = 59 ->
                 _validate_config_content (Examples.document Examples.seeds (PyInt 5) (PyInt t))
                 = Ok tt)).
  { intros t.
    apply (timeout_boundaries _ Examples.seeds (PyInt 5) (PyDict ∅) (PyStr (lit "utf-8"))
             (PyBool true) (PyBool false) (PyInt t));
      [concrete_fields | exact Hs | exact Hn | exact Hp | reflexivity]. }
  split; [|split; [|split]].
  - apply (H 0). lia.
  - apply (H 1). lia.
  - apply (H 59). lia.
  - apply (H 60). lia.
Defined.

(** C6. Validation should raise IncorrectTimeoutError whenever the timeout
    is not an integer strictly between 0 and 60. On a document whose timeout
    is the boolean true, the other fields being valid, it returns normally
    instead: the timeout check accepts the boolean as the integer 1. The
    check of the count has the guard that this one lacks: the same boolean
    as count is rejected. *)
Theorem boolean_timeout_is_accepted :
  _validate_config_content (Examples.document Examples.seeds (PyInt 5) (PyBool true)) = Ok tt
  /\ _validate_config_content (Examples.document Examples.seeds (PyInt 5) (PyBool true))
     <> Raise IncorrectTimeoutError
  /\ _validate_config_content (Examples.document Examples.seeds (PyBool true) (PyInt 5))
     = Raise IncorrectNumberOfArticlesError.
Proof.
  split; [vm_compute; reflexivity|]. split; [vm_compute; discriminate|].
  vm_compute; reflexivity.
Qed.

(** ** The flat crawler *)

Lemma comprehension_constant {A B : Type} (r : result B) (u : B) (l : list A) :
  r = Ok u -> comprehension (fun _ => r) l = Ok (repeat u (length l)).
Proof.
  intros ->. induction l as [|x l IH]; [reflexivity|].
  cbn [comprehension rbind length repeat]. rewrite IH. reflexivity.
Qed.

Lemma comprehension_raises {A B : Type} (r : result B) (e : exn) (x : A) (l : list A) :
  r = Raise e -> comprehension (fun _ => r) (x :: l) = Raise e.
Proof. intros ->. reflexivity. Qed.

(** Without a marked link the loop leaves the variable as it found it. *)
Lemma extract_loop_unmarked urls url links :
  Forall (fun link => Crawler.marked link = false) links ->
  Crawler._extract_url_loop urls url links = url.
Proof.
  intros H. revert url. induction H as [|link links Hm _ IH]; intros url; [reflexivity|].
  cbn [Crawler._extract_url_loop]. rewrite Hm. apply IH.
Qed.

(** When every marked link has a string for [href], the loop ends on a
    string. *)
Lemma extract_loop_string urls url links :
  Forall (fun link => Crawler.marked link = true ->
                      exists h, get link (lit "href") = Some (AttrStr h)) links ->
  (exists h, url = Some (AttrStr h)) ->
  exists h, Crawler._extract_url_loop urls url links = Some (AttrStr h).
Proof.
  intros H. revert url. induction H as [|link links Hm _ IH]; intros url Hurl; [exact Hurl|].
  cbn [Crawler._extract_url_loop].
  destruct (Crawler.marked link); [|apply IH, Hurl].
  destruct (Hm eq_refl) as [h Hh].
  destruct (Crawler.not_in_urls (get link (lit "href")) urls).
  - exists h. exact Hh.
  - apply IH. exists h. exact Hh.
Qed.

Lemma extract_url_returns self article_bs :
  Forall (fun link => Crawler.marked link = true ->
                      exists h, get link (lit "href") = Some (AttrStr h))
         (Crawler.links article_bs) ->
  exists h, Crawler._extract_url self article_bs
            = Ok (Crawler.url_pattern self ++ drop (length (lit "/news")) h).
Proof.
  intros Hhref.
  destruct (extract_loop_string (Crawler.urls self) (Some (AttrStr [])) _ Hhref) as [h Hh];
    [exists []; reflexivity|].
  exists h. unfold Crawler._extract_url. rewrite Hh. reflexivity.
Qed.

Lemma extract_url_total self article_bs :
  Forall (fun link => Crawler.marked link = true ->
                      exists h, get link (lit "href") = Some (AttrStr h))
         (Crawler.links article_bs) ->
  returns (Crawler._extract_url self article_bs).
Proof.
  intros Hhref. destruct (extract_url_returns self _ Hhref) as [h Hh].
  eexists. exact Hh.
Qed.

(** Evaluate the list of links of a concrete page. *)
Ltac evaluate_links :=
  match goal with
  | |- Forall _ ?l => let l' := eval vm_compute in l in change l with l'
  end.

Section FlatCrawler.
Variable BeautifulSoup : str -> str -> node.
Variable requests_get : network.

Local Abbreviation loop := (Crawler.find_articles_loop BeautifulSoup requests_get).
Local Abbreviation soup response := (BeautifulSoup (text response) (lit "html.parser")).

Lemma loop_request_raises self seed_url rest log e :
  requests_get log seed_url (Crawler.config self) = Raise e ->
  loop self (seed_url :: rest) log = (Raise e, self, log ++ [seed_url]).
Proof.
  intros H. cbn [Crawler.find_articles_loop]. unfold make_request. rewrite H. reflexivity.
Qed.

Lemma loop_skips self seed_url rest log response :
  requests_get log seed_url (Crawler.config self) = Ok response ->
  ok response = false ->
  loop self (seed_url :: rest) log = loop self rest (log ++ [seed_url]).
Proof.
  intros H Hok. cbn [Crawler.find_articles_loop]. unfold make_request.
  rewrite H, Hok. reflexivity.
Qed.

Lemma loop_extends self seed_url rest log response u :
  requests_get log seed_url (Crawler.config self) = Ok response ->
  ok response = true ->
  Crawler._extract_url self (soup response) = Ok u ->
  loop self (seed_url :: rest) log
  = loop (Crawler.extend self (repeat u 10)) rest (log ++ [seed_url]).
Proof.
  intros H Hok Hu. cbn [Crawler.find_articles_loop]. unfold make_request.
  rewrite H, Hok. cbn [negb].
  rewrite (comprehension_constant _ u (seq 0 10) Hu). reflexivity.
Qed.

Lemma loop_extract_raises self seed_url rest log response e :
  requests_get log seed_url (Crawler.config self) = Ok response ->
  ok response = true ->
  Crawler._extract_url self (soup response) = Raise e ->
  loop self (seed_url :: rest) log = (Raise e, self, log ++ [seed_url]).
Proof.
  intros H Hok Hu. cbn [Crawler.find_articles_loop]. unfold make_request.
  rewrite H, Hok. cbn [negb].
  change (seq 0 10) with (0%nat :: seq 1 9).
  rewrite (comprehension_raises _ e _ _ Hu). reflexivity.
Qed.

(** X20. A listing page whose fetch returns a non-success response contributes
    no entry to the collected URLs: the crawler goes on unchanged. A listing
    page whose fetch returns a success response, and on which every marked
    link of the right language carries a string [href], has the extraction
    routine run ten times and contributes exactly 10 entries, ten copies of
    the URL that the extraction routine returns, however many marked links
    it contains: the collected URLs afterwards are the ones before followed
    by these ten. *)
Theorem page_contributes_ten_urls self seed_url rest log response :
  requests_get log seed_url (Crawler.config self) = Ok response ->
  (ok response = false ->
   loop self (seed_url :: rest) log = loop self rest (log ++ [seed_url])
   /\ loop self [seed_url] log = (Ok tt, self, log ++ [seed_url]))
  /\ (ok response = true ->
      Forall (fun link => Crawler.marked link = true ->
                          exists h, get link (lit "href") = Some (AttrStr h))
             (Crawler.links (soup response)) ->
      exists u,
        Crawler._extract_url self (soup response) = Ok u
        /\ comprehension (fun _ => Crawler._extract_url self (soup response)) (seq 0 10)
           = Ok (repeat u 10)
        /\ loop self (seed_url :: rest) log
           = loop {| Crawler.config := Crawler.config self;
                     Crawler.urls := Crawler.urls self ++ repeat u 10;
                     Crawler.url_pattern := Crawler.url_pattern self |}
                  rest (log ++ [seed_url])
        /\ loop self [seed_url] log
           = (Ok tt,
              {| Crawler.config := Crawler.config self;
                 Crawler.urls := Crawler.urls self ++ repeat u 10;
                 Crawler.url_pattern := Crawler.url_pattern self |},
              log ++ [seed_url])
        /\ Crawler.urls (state_of (loop self [seed_url] log))
           = Crawler.urls self ++ repeat u 10
        /\ length (Crawler.urls (state_of (loop self [seed_url] log)))
           = (length (Crawler.urls self) + 10)%nat).
Proof.
  intros H. split; intros Hok.
  - split; [exact (loop_skips _ _ _ _ _ H Hok)|].
    rewrite (loop_skips _ _ _ _ _ H Hok). reflexivity.
  - intros Hhref. destruct (extract_url_returns self _ Hhref) as [h Hu].
    eexists. split; [exact Hu|]. split; [exact (comprehension_constant _ _ (seq 0 10) Hu)|].
    split; [exact (loop_extends _ _ _ _ _ _ H Hok Hu)|].
    rewrite (loop_extends _ _ _ _ _ _ H Hok Hu).
    split; [reflexivity|]. split; [reflexivity|].
    cbn [Crawler.find_articles_loop state_of fst snd Crawler.extend Crawler.urls].
    rewrite length_app, repeat_length. reflexivity.
Qed.

(** C10. A listing page that is fetched successfully and has no marked link
    of the right language makes the extraction routine return the base
    pattern of the crawler itself, so that the crawler adds ten copies of
    the base pattern to its collected URLs for that page: the collected URLs
    afterwards are the ones before followed by these ten copies. *)
Theorem page_without_marked_link self seed_url rest log response :
  requests_get log seed_url (Crawler.config self) = Ok response ->
  ok response = true ->
  Forall (fun link => Crawler.marked link = false) (Crawler.links (soup response)) ->
  Crawler._extract_url self (soup response) = Ok (Crawler.url_pattern self)
  /\ loop self (seed_url :: rest) log
     = loop {| Crawler.config := Crawler.config self;
               Crawler.urls :=
                 Crawler.urls self ++ repeat (Crawler.url_pattern self) 10;
               Crawler.url_pattern := Crawler.url_pattern self |}
            rest (log ++ [seed_url])
  /\ loop self [seed_url] log
     = (Ok tt,
        {| Crawler.config := Crawler.config self;
           Crawler.urls := Crawler.urls self ++ repeat (Crawler.url_pattern self) 10;
           Crawler.url_pattern := Crawler.url_pattern self |},
        log ++ [seed_url])
  /\ Crawler.urls (state_of (loop self [seed_url] log))
     = Crawler.urls self ++ repeat (Crawler.url_pattern self) 10.
Proof.
  intros H Hok Hnone.
  assert (Hu : Crawler._extract_url self (soup response) = Ok (Crawler.url_pattern self)).
  { unfold Crawler._extract_url. rewrite (extract_loop_unmarked _ _ _ Hnone).
    cbn [drop]. rewrite app_nil_r. reflexivity. }
  split; [exact Hu|].
  split; [exact (loop_extends _ _ _ _ _ _ H Hok Hu)|].
  rewrite (loop_extends _ _ _ _ _ _ H Hok Hu). split; reflexivity.
Qed.

End FlatCrawler.

Lemma page_contributes_ten_urls_witness :
  Crawler.urls
    (state_of (Crawler.find_articles Examples.soup_of
                 (Examples.constant_site 200 (lit "three links")) Examples.crawler []))
  = repeat (lit "https://example.org/news/first") 10.
Proof.
  destruct (page_contributes_ten_urls Examples.soup_of
              (Examples.constant_site 200 (lit "three links")) Examples.crawler
              (lit "https://example.org/news?page=0") [] []
              {| status_code := 200; text := lit "three links" |} eq_refl) as [_ H].
  destruct H as (u & Hu & _ & _ & _ & Hurls & _); [reflexivity | |].
  - change (Crawler.links (Examples.soup_of (text {| status_code := 200;
                                                     text := lit "three links" |})
                             (lit "html.parser")))
      with [Examples.more_link (lit "/news/first"); Examples.more_link (lit "/news/second");
            Examples.more_link (lit "/news/third")].
    repeat (apply List.Forall_cons; [intros _; eexists; reflexivity|]). apply List.Forall_nil.
  - assert (Hfirst : Ok u = Ok (lit "https://example.org/news/first"))
      by (rewrite <- Hu; vm_compute; reflexivity).
    assert (Heq : u = lit "https://example.org/news/first") by congruence.
    rewrite <- Heq. exact Hurls.
Defined.

(** C4. Every listing page whose fetch returns a success response should
    contribute exactly 10 entries to the collected URLs. On a page fetched
    with status 200 whose marked link has no [href], the extraction routine
    raises a TypeError instead: the run stops there and the crawler has
    collected nothing, where 10 entries were due. *)
Theorem marked_link_without_href_stops_run :
  ok {| status_code := 200; text := lit "link without href" |} = true
  /\ Crawler._extract_url Examples.crawler Examples.page_link_without_href = Raise TypeError
  /\ Crawler.find_articles Examples.soup_of
       (Examples.constant_site 200 (lit "link without href")) Examples.crawler []
     = (Raise TypeError, Examples.crawler, [lit "https://example.org/news?page=0"])
  /\ Crawler.urls Examples.crawler = [].
Proof. split; [|split; [|split]]; vm_compute; reflexivity. Qed.

Lemma page_without_marked_link_witness :
  Crawler._extract_url Examples.crawler (Examples.soup_of (lit "no link") (lit "html.parser"))
  = Ok (lit "https://example.org/news")
  /\ Crawler.urls
       (state_of (Crawler.find_articles Examples.soup_of
                    (Examples.constant_site 200 (lit "no link")) Examples.crawler []))
     = repeat (lit "https://example.org/news") 10.
Proof.
  destruct (page_without_marked_link Examples.soup_of
              (Examples.constant_site 200 (lit "no link")) Examples.crawler
              (lit "https://example.org/news?page=0") [] []
              {| status_code := 200; text := lit "no link" |} eq_refl eq_refl)
    as (Hu & _ & _ & Hurls).
  - change (Crawler.links (Examples.soup_of (text {| status_code := 200;
                                                     text := lit "no link" |})
                             (lit "html.parser")))
      with [Tag (lit "a") [(lit "hreflang", AttrStr (lit "ru"));
                           (lit "href", AttrStr (lit "/news/y"))]
              [NavigableString (lit "next")]].
    apply List.Forall_cons; [reflexivity | apply List.Forall_nil].
  - split; [exact Hu | exact Hurls].
Defined.

(** ** The paginated crawler *)

Lemma range_from_zero (n : Z) : range 0 n = map Z.of_nat (seq 0 (Z.to_nat n)).
Proof. unfold range. rewrite Z.sub_0_r. apply map_ext. intros i. lia. Qed.

Lemma range_length (n : Z) : 0 <= n -> Z.of_nat (length (range 0 n)) = n.
Proof. intros Hn. rewrite range_from_zero, length_map, length_seq. lia. Qed.

Lemma range_lookup (n : Z) (i : nat) :
  Z.of_nat i < n -> range 0 n !! i = Some (Z.of_nat i).
Proof.
  intros Hi. rewrite range_from_zero, list_lookup_fmap, lookup_seq_lt by lia.
  reflexivity.
Qed.

Section PaginatedCrawler.
Variable BeautifulSoup : str -> str -> node.
Variable requests_get : network.
Variable int : str -> result Z.

Local Abbreviation loop := (Crawler.find_articles_loop BeautifulSoup requests_get).
Local Abbreviation soup response := (BeautifulSoup (text response) (lit "html.parser")).
Local Abbreviation run := (CrawlerRecursive.find_articles BeautifulSoup requests_get int).

(** The loop asks for the pages in the order of the list, one request per
    page, up to the page on which it stops; it only returns after the last
    one. *)
Lemma loop_log pages : forall self log,
  exists k, (k <= length pages)%nat
            /\ log_of (loop self pages log) = log ++ take k pages
            /\ (outcome (loop self pages log) = Ok tt -> k = length pages).
Proof.
  induction pages as [|page pages IH]; intros self log.
  - exists 0%nat. cbn. rewrite app_nil_r. auto.
  - assert (Hnext : forall self',
               loop self (page :: pages) log = loop self' pages (log ++ [page]) ->
               exists k, (k <= length (page :: pages))%nat
                 /\ log_of (loop self (page :: pages) log) = log ++ take k (page :: pages)
                 /\ (outcome (loop self (page :: pages) log) = Ok tt
                     -> k = length (page :: pages))).
    { intros self' ->. destruct (IH self' (log ++ [page])) as (k & Hk & Hlog & Hout).
      exists (S k). cbn [length take]. rewrite Hlog, <- app_assoc.
      split; [lia | split; [reflexivity | intros H; rewrite (Hout H); reflexivity]]. }
    assert (Hstop : forall e,
               loop self (page :: pages) log = (Raise e, self, log ++ [page]) ->
               exists k, (k <= length (page :: pages))%nat
                 /\ log_of (loop self (page :: pages) log) = log ++ take k (page :: pages)
                 /\ (outcome (loop self (page :: pages) log) = Ok tt
                     -> k = length (page :: pages))).
    { intros e ->. exists 1%nat. cbn [length take log_of outcome fst snd].
      rewrite take_0. split; [lia | split; [reflexivity | discriminate]]. }
    destruct (requests_get log page (Crawler.config self)) as [response|e] eqn:Hreq.
    + destruct (ok response) eqn:Hok.
      * destruct (Crawler._extract_url self (soup response)) as [u|e] eqn:Hu.
        -- exact (Hnext _ (loop_extends _ _ _ _ _ _ _ _ Hreq Hok Hu)).
        -- exact (Hstop _ (loop_extract_raises _ _ _ _ _ _ _ _ Hreq Hok Hu)).
      * exact (Hnext _ (loop_skips _ _ _ _ _ _ _ Hreq Hok)).
    + exact (Hstop _ (loop_request_raises _ _ _ _ _ _ _ Hreq)).
Qed.

(** When no request raises and no extraction raises, the loop returns. *)
Lemma loop_returns cfg pages :
  (forall log url, returns (requests_get log url cfg)) ->
  (forall self log url response,
     Crawler.config self = cfg -> requests_get log url cfg = Ok response ->
     ok response = true -> returns (Crawler._extract_url self (soup response))) ->
  forall self log, Crawler.config self = cfg -> outcome (loop self pages log) = Ok tt.
Proof.
  intros Hnet Hext. induction pages as [|page pages IH]; intros self log Hcfg; [reflexivity|].
  destruct (Hnet log page) as [response Hreq].
  rewrite <- Hcfg in Hreq.
  destruct (ok response) eqn:Hok.
  - destruct (Hext self log page response Hcfg) as [u Hu]; [rewrite <- Hcfg; exact Hreq | exact Hok |].
    rewrite (loop_extends _ _ _ _ _ _ _ _ Hreq Hok Hu). apply IH. exact Hcfg.
  - rewrite (loop_skips _ _ _ _ _ _ _ Hreq Hok). apply IH. exact Hcfg.
Qed.

(** The run, once the first request has been answered. *)
Lemma run_after_bootstrap self log response :
  requests_get log (CrawlerRecursive.start_url self) (configuration_of self) = Ok response ->
  run self log =
    match (if ok response then CrawlerRecursive.read_last_page int (soup response)
           else Ok 0) with
    | Raise e => (Raise e, self, log ++ [CrawlerRecursive.start_url self])
    | Ok last_page =>
        let r := loop (CrawlerRecursive.base self) (map (page_url self) (range 0 last_page))
                   (log ++ [CrawlerRecursive.start_url self]) in
        (outcome r,
         {| CrawlerRecursive.base := state_of r;
            CrawlerRecursive.inforced_stop := CrawlerRecursive.inforced_stop self;
            CrawlerRecursive.start_url := CrawlerRecursive.start_url self |},
         log_of r)
    end.
Proof.
  intros Hreq. unfold CrawlerRecursive.find_articles, make_request.
  unfold configuration_of in Hreq. rewrite Hreq.
  destruct (if ok response then _ else _); [|reflexivity].
  unfold page_url.
  destruct (Crawler.find_articles_loop _ _ _ _ _) as [[r c] l]. reflexivity.
Qed.

(** C3 (amended). When the first request of the paginated crawler is
    answered with a non-success response, the run does not fail: it returns
    normally, no listing page has been asked for and the crawler is
    unchanged, so no URL has been collected. When the answer is a success
    response and the page has no element of the pager class, the run fails
    with an AttributeError, which reaches the caller; so does any other
    error met while the last page index is read. *)
Theorem bootstrap_outcomes self log response :
  requests_get log (CrawlerRecursive.start_url self) (configuration_of self) = Ok response ->
  (ok response = false ->
   run self log = (Ok tt, self, log ++ [CrawlerRecursive.start_url self]))
  /\ (ok response = true ->
      find None [(lit "class", lit "pager__item pager__item--last")] (soup response) = None ->
      run self log = (Raise AttributeError, self, log ++ [CrawlerRecursive.start_url self]))
  /\ (ok response = true ->
      forall e, CrawlerRecursive.read_last_page int (soup response) = Raise e ->
      run self log = (Raise e, self, log ++ [CrawlerRecursive.start_url self])).
Proof.
  intros Hreq. rewrite (run_after_bootstrap _ _ _ Hreq).
  split; [|split]; intros Hok; rewrite Hok.
  - destruct self. reflexivity.
  - intros Hnone. unfold CrawlerRecursive.read_last_page. rewrite Hnone. reflexivity.
  - intros e ->. reflexivity.
Qed.

(** C5. When the page answered to the first request advertises the last
    page index N, the crawler builds one address per index from 0 up to but
    excluding N, the address of index i at position i, and asks for them in
    that order, one request each, after the first request: whatever happens
    the requests issued are an initial part of that list, they are the whole
    list when the run returns, and the run does return when no request and
    no extraction raises. *)
Theorem paginated_crawl_order self log response (N : Z) :
  requests_get log (CrawlerRecursive.start_url self) (configuration_of self) = Ok response ->
  ok response = true ->
  CrawlerRecursive.read_last_page int (soup response) = Ok N ->
  let pages := map (page_url self) (range 0 N) in
  (0 <= N -> Z.of_nat (length pages) = N)
  /\ (forall i : nat, Z.of_nat i < N -> pages !! i = Some (page_url self (Z.of_nat i)))
  /\ (exists k, (k <= length pages)%nat
                /\ log_of (run self log)
                   = log ++ CrawlerRecursive.start_url self :: take k pages)
  /\ (outcome (run self log) = Ok tt ->
      log_of (run self log) = log ++ CrawlerRecursive.start_url self :: pages)
  /\ ((forall log url, returns (requests_get log url (configuration_of self))) ->
      (forall crawler log url response,
         Crawler.config crawler = configuration_of self ->
         requests_get log url (configuration_of self) = Ok response ->
         ok response = true ->
         returns (Crawler._extract_url crawler (soup response))) ->
      outcome (run self log) = Ok tt).
Proof.
  intros Hreq Hok HN pages.
  rewrite (run_after_bootstrap _ _ _ Hreq), Hok, HN.
  cbn [outcome log_of state_of fst snd]. fold pages.
  destruct (loop_log pages (CrawlerRecursive.base self)
              (log ++ [CrawlerRecursive.start_url self])) as (k & Hk & Hlog & Hout).
  split; [|split; [|split; [|split]]].
  - intros HN0. unfold pages. rewrite length_map. apply range_length, HN0.
  - intros i Hi. unfold pages. rewrite list_lookup_fmap, (range_lookup _ _ Hi). reflexivity.
  - exists k. split; [exact Hk|]. rewrite Hlog, <- app_assoc. reflexivity.
  - intros Hret. rewrite Hlog, <- app_assoc, (Hout Hret), firstn_all. reflexivity.
  - intros Hnet Hext. apply (loop_returns (configuration_of self)); auto.
Qed.

End PaginatedCrawler.

(** The first request answered with status 404: the run returns normally,
    having asked for no listing page and collected nothing. *)
Lemma failed_bootstrap_crawls_nothing :
  ok {| status_code := 404; text := [] |} = false
  /\ CrawlerRecursive.find_articles Examples.soup_of (Examples.constant_site 404 [])
       int_decimal Examples.crawler_recursive []
     = (Ok tt, Examples.crawler_recursive, [lit "https://example.org/news?page="])
  /\ Crawler.urls (CrawlerRecursive.base Examples.crawler_recursive) = [].
Proof. split; [|split]; vm_compute; reflexivity. Qed.

Lemma bootstrap_outcomes_witness :
  CrawlerRecursive.find_articles Examples.soup_of (Examples.constant_site 404 [])
    int_decimal Examples.crawler_recursive []
  = (Ok tt, Examples.crawler_recursive, [lit "https://example.org/news?page="])
  /\ CrawlerRecursive.find_articles Examples.soup_of (Examples.constant_site 200 [])
       int_decimal Examples.crawler_recursive []
     = (Raise AttributeError, Examples.crawler_recursive,
        [lit "https://example.org/news?page="]).
Proof.
  split.
  - apply (bootstrap_outcomes Examples.soup_of (Examples.constant_site 404 []) int_decimal
             Examples.crawler_recursive [] {| status_code := 404; text := [] |} eq_refl).
    reflexivity.
  - apply (bootstrap_outcomes Examples.soup_of (Examples.constant_site 200 []) int_decimal
             Examples.crawler_recursive [] {| status_code := 200; text := [] |} eq_refl);
      reflexivity.
Defined.

Lemma paginated_crawl_order_witness :
  log_of (CrawlerRecursive.find_articles Examples.soup_of Examples.paginated_site
            int_decimal Examples.crawler_recursive [])
  = [lit "https://example.org/news?page="; lit "https://example.org/news?page=0";
     lit "https://example.org/news?page=1"; lit "https://example.org/news?page=2";
     lit "https://example.org/news?page=3"; lit "https://example.org/news?page=4"]
  /\ outcome (CrawlerRecursive.find_articles Examples.soup_of Examples.paginated_site
                int_decimal Examples.crawler_recursive []) = Ok tt.
Proof.
  destruct (paginated_crawl_order Examples.soup_of Examples.paginated_site int_decimal
              Examples.crawler_recursive [] {| status_code := 200; text := lit "pager 5" |} 5)
    as (_ & _ & _ & Hlog & Hret); [reflexivity | reflexivity | reflexivity |].
  assert (Hout : outcome (CrawlerRecursive.find_articles Examples.soup_of
                            Examples.paginated_site int_decimal
                            Examples.crawler_recursive []) = Ok tt).
  { apply Hret.
    - intros log url. unfold Examples.paginated_site.
      destruct (str_eqb url _); eexists; reflexivity.
    - intros crawler log url response _. unfold Examples.paginated_site.
      destruct (str_eqb url _); intros [= <-] _;
        apply extract_url_total; evaluate_links;
        repeat (apply List.Forall_cons; [intros _; eexists; reflexivity|]);
        apply List.Forall_nil. }
  split; [|exact Hout].
  rewrite (Hlog Hout). reflexivity.
Defined.

(** ** The article parser *)

Section ArticleParser.
Variable BeautifulSoup : str -> str -> node.
Variable requests_get : network.
Variable strptime : str -> str -> result datetime.
Variable Store : Type.
Variable to_raw : Article.Article -> Store -> result unit * Store.
Variable to_meta : Article.Article -> Store -> result unit * Store.

Local Abbreviation parse := (HTMLParser.parse BeautifulSoup requests_get strptime).
Local Abbreviation main_loop :=
  (HTMLParser.main_loop BeautifulSoup requests_get strptime Store to_raw to_meta).
Local Abbreviation soup response := (BeautifulSoup (text response) (lit "lxml")).

Lemma parse_unfetched self log response :
  requests_get log (HTMLParser.full_url self) (HTMLParser.config self) = Ok response ->
  ok response = false ->
  parse self log = (Ok (HTMLParser.article self), log ++ [HTMLParser.full_url self]).
Proof.
  intros Hreq Hok. unfold HTMLParser.parse, make_request. rewrite Hreq, Hok. reflexivity.
Qed.

(** C7. For an article URL whose fetch returns a non-success response,
    [parse] returns, and does not raise, the record created for that URL
    and id: its identity is set, its title, text, date, author and topics
    are unset. In the loop of [main] the run then goes on with the next URL
    once the two sinks have taken the record. *)
Theorem unfetched_article_has_identity_only url id configuration log response :
  requests_get log url configuration = Ok response ->
  ok response = false ->
  let record := Article.__init__ url id in
  parse (HTMLParser.__init__ url id configuration) log = (Ok record, log ++ [url])
  /\ (Article.url record = url /\ Article.article_id record = id
      /\ Article.title record = Unset /\ Article.text record = Unset
      /\ Article.date record = Unset /\ Article.author record = Unset
      /\ Article.topics record = Unset)
  /\ (forall index rest store store1 store2,
        id = index + 1 ->
        to_raw record store = (Ok tt, store1) ->
        to_meta record store1 = (Ok tt, store2) ->
        main_loop configuration index (url :: rest) log store
        = main_loop configuration (index + 1) rest (log ++ [url]) store2).
Proof.
  intros Hreq Hok record.
  assert (Hparse : parse (HTMLParser.__init__ url id configuration) log
                   = (Ok record, log ++ [url]))
    by exact (parse_unfetched (HTMLParser.__init__ url id configuration) log response Hreq Hok).
  split; [exact Hparse | split; [repeat split|]].
  intros index rest store store1 store2 -> Hraw Hmeta.
  cbn [HTMLParser.main_loop]. rewrite Hparse. fold record. rewrite Hraw, Hmeta. reflexivity.
Qed.



End ArticleParser.

Lemma unfetched_article_has_identity_only_witness :
  HTMLParser.parse Examples.soup_of (Examples.constant_site 404 []) Strptime.strptime
    (HTMLParser.__init__ (lit "https://example.org/news/first") 1 Examples.configuration) []
  = (Ok (Article.__init__ (lit "https://example.org/news/first") 1),
     [lit "https://example.org/news/first"])
  /\ HTMLParser.main_loop Examples.soup_of (Examples.constant_site 404 []) Strptime.strptime
       unit Examples.accept Examples.accept Examples.configuration 0
       [lit "https://example.org/news/first"; lit "https://example.org/news/second"] [] tt
     = HTMLParser.main_loop Examples.soup_of (Examples.constant_site 404 []) Strptime.strptime
         unit Examples.accept Examples.accept Examples.configuration 1
         [lit "https://example.org/news/second"] [lit "https://example.org/news/first"] tt.
Proof.
  destruct (unfetched_article_has_identity_only Examples.soup_of
              (Examples.constant_site 404 []) Strptime.strptime unit
              Examples.accept Examples.accept
              (lit "https://example.org/news/first") 1 Examples.configuration []
              {| status_code := 404; text := [] |} eq_refl eq_refl) as (Hparse & _ & Hnext).
  split; [exact Hparse|].
  exact (Hnext 0 [lit "https://example.org/news/second"] tt tt tt eq_refl eq_refl eq_refl).
Defined.


(** ** Validation of a dataset *)

Lemma insert_by_permutation {A : Type} (key : A -> Z) (x : A) (l : list A) :
  Permutation (insert_by key x l) (x :: l).
Proof.
  induction l as [|y l IH]; [reflexivity|].
  cbn [insert_by]. destruct (key x <=? key y); [reflexivity|].
  rewrite IH. apply perm_swap.
Qed.

Lemma sort_by_permutation {A : Type} (key : A -> Z) (l : list A) :
  Permutation (sort_by key l) l.
Proof.
  induction l as [|x l IH]; [reflexivity|].
  cbn [sort_by fold_right]. rewrite insert_by_permutation. apply perm_skip, IH.
Qed.

Lemma sort_by_length {A : Type} (key : A -> Z) (l : list A) :
  length (sort_by key l) = length l.
Proof. apply Permutation_length, sort_by_permutation. Qed.

Section Dataset.
Variable get_article_id_from_filepath : str -> Z.

Local Abbreviation article_id := (CorpusManager.article_id get_article_id_from_filepath).
Local Abbreviation check_pairs := (CorpusManager.check_pairs get_article_id_from_filepath).
Local Abbreviation validate := (CorpusManager._validate_dataset get_article_id_from_filepath).

Lemma ids_after_succ index n :
  ids_after index (S n) = (index + 1) :: ids_after (index + 1) n.
Proof.
  unfold ids_after. cbn [seq map]. f_equal.
  rewrite <- seq_shift, map_map. apply map_ext. intros j. lia.
Qed.

Lemma ids_after_zero n : ids_after 0 n = one_to n.
Proof. unfold ids_after, one_to. apply map_ext. intros j. lia. Qed.

(** The loop either returns or raises the inconsistency error. *)
Lemma check_pairs_outcome pairs : forall index,
  check_pairs index pairs = Ok tt \/ check_pairs index pairs = Raise InconsistentDatasetError.
Proof.
  induction pairs as [|[meta raw] pairs IH]; intros index; [left; reflexivity|].
  cbn [CorpusManager.check_pairs]. destruct (_ || _); [right; reflexivity | apply IH].
Qed.

(** It returns exactly when both lists carry the expected ids, in order, and
    no file is empty. *)
Lemma check_pairs_returns metas : forall raws index,
  length metas = length raws ->
  check_pairs index (combine metas raws) = Ok tt
  <-> (map article_id metas = ids_after index (length metas)
       /\ map article_id raws = ids_after index (length raws)
       /\ Forall (fun e => st_size e <> 0) (metas ++ raws)).
Proof.
  induction metas as [|meta metas IH]; intros [|raw raws] index Hlen; try discriminate Hlen.
  - cbn. repeat split; constructor.
  - injection Hlen as Hlen.
    cbn [combine CorpusManager.check_pairs length map]. rewrite !ids_after_succ.
    rewrite <- app_comm_cons, Forall_cons, Forall_app, Forall_cons.
    specialize (IH raws (index + 1) Hlen). rewrite Forall_app in IH.
    destruct (Z.eqb_spec (index + 1) (article_id meta)) as [Hm|Hm];
      [|split; [discriminate | intros ([= H _] & _); congruence]].
    destruct (Z.eqb_spec (index + 1) (article_id raw)) as [Hr|Hr];
      [|split; [discriminate | intros (_ & [= H _] & _); congruence]].
    destruct (Z.eqb_spec (st_size meta) 0) as [Hsm|Hsm];
      [split; [discriminate | intros (_ & _ & H & _); congruence]|].
    destruct (Z.eqb_spec (st_size raw) 0) as [Hsr|Hsr];
      [split; [discriminate | intros (_ & _ & _ & _ & H & _); congruence]|].
    cbn [negb orb]. rewrite IH, <- Hm, <- Hr. split.
    + intros (H1 & H2 & H3 & H4). rewrite H1, H2. repeat split; assumption.
    + intros ([= H1] & [= H2] & _ & H3 & _ & H4). repeat split; assumption.
Qed.

(** What validation does on a directory that is not empty. *)
Lemma validate_directory entries :
  entries <> [] ->
  validate (Directory entries) =
    let metas := glob (lit "_meta.json") entries in
    let raws := glob (lit "_raw.txt") entries in
    if negb (length metas =? length raws)%nat then Raise InconsistentDatasetError
    else check_pairs 0 (combine (sort_by article_id metas) (sort_by article_id raws)).
Proof. destruct entries; [congruence | reflexivity]. Qed.

Lemma sorted_files_nonempty (metas raws : list dir_entry) :
  Forall (fun e => st_size e <> 0) (sort_by article_id metas ++ sort_by article_id raws)
  <-> Forall (fun e => st_size e <> 0) (metas ++ raws).
Proof.
  assert (Hp : Permutation (sort_by article_id metas ++ sort_by article_id raws)
                           (metas ++ raws))
    by (apply Permutation_app; apply sort_by_permutation).
  split; intros H.
  - exact (Permutation_Forall Hp H).
  - exact (Permutation_Forall (Permutation_sym Hp) H).
Qed.

(** Validation of a directory with equally many files of both kinds. *)
Lemma validate_equal_counts entries :
  entries <> [] ->
  length (glob (lit "_meta.json") entries) = length (glob (lit "_raw.txt") entries) ->
  (validate (Directory entries) = Ok tt
   \/ validate (Directory entries) = Raise InconsistentDatasetError)
  /\ (validate (Directory entries) = Ok tt
      <-> (map article_id (sort_by article_id (glob (lit "_meta.json") entries))
           = one_to (length (glob (lit "_meta.json") entries))
           /\ map article_id (sort_by article_id (glob (lit "_raw.txt") entries))
              = one_to (length (glob (lit "_raw.txt") entries))
           /\ Forall (fun e => st_size e <> 0)
                (glob (lit "_meta.json") entries ++ glob (lit "_raw.txt") entries))).
Proof.
  intros Hne Hlen. rewrite (validate_directory _ Hne). cbv zeta.
  rewrite Hlen, Nat.eqb_refl. cbn [negb]. split; [apply check_pairs_outcome|].
  rewrite check_pairs_returns by (rewrite !sort_by_length; exact Hlen).
  rewrite !sort_by_length, !ids_after_zero, sorted_files_nonempty, <- Hlen. reflexivity.
Qed.

(** C9. The check raises EmptyDirectoryError on a directory that contains
    nothing. On a directory that contains something it raises
    InconsistentDatasetError when the numbers of meta and raw files differ,
    when one of these files has length zero, or when the ids of the meta
    files or of the raw files, sorted, are not exactly 1..N; and it passes
    when none of this is the case. *)
Theorem dataset_integrity entries :
  let metas := glob (lit "_meta.json") entries in
  let raws := glob (lit "_raw.txt") entries in
  let sorted_ids l := map article_id (sort_by article_id l) in
  (entries = [] -> validate (Directory entries) = Raise EmptyDirectoryError)
  /\ (entries <> [] ->
      length metas <> length raws
      \/ Exists (fun e => st_size e = 0) (metas ++ raws)
      \/ sorted_ids metas <> one_to (length metas)
      \/ sorted_ids raws <> one_to (length raws) ->
      validate (Directory entries) = Raise InconsistentDatasetError)
  /\ (entries <> [] ->
      length metas = length raws ->
      Forall (fun e => st_size e <> 0) (metas ++ raws) ->
      sorted_ids metas = one_to (length metas) ->
      sorted_ids raws = one_to (length raws) ->
      validate (Directory entries) = Ok tt).
Proof.
  intros metas raws sorted_ids. split; [|split].
  - intros ->. reflexivity.
  - intros Hne Hbad.
    destruct (Nat.eq_dec (length metas) (length raws)) as [Hlen|Hlen].
    + destruct (validate_equal_counts entries Hne Hlen) as [[Hok|Hraise] Hiff];
        [|exact Hraise].
      exfalso. apply Hiff in Hok. destruct Hok as (Hm & Hr & Hsize).
      destruct Hbad as [H | [H | [H | H]]]; try contradiction.
      apply Exists_exists in H. destruct H as (e & Hin & Hzero).
      rewrite Forall_forall in Hsize. exact (Hsize e Hin Hzero).
    + rewrite (validate_directory _ Hne). cbv zeta. fold metas raws.
      apply Nat.eqb_neq in Hlen. rewrite Hlen. reflexivity.
  - intros Hne Hlen Hsize Hm Hr.
    apply (validate_equal_counts entries Hne Hlen). auto.
Qed.

End Dataset.

Lemma dataset_integrity_witness :
  CorpusManager._validate_dataset Examples.id_of_name Examples.dataset_meta_gap
  = Raise InconsistentDatasetError
  /\ CorpusManager._validate_dataset Examples.id_of_name Examples.dataset_matched = Ok tt
  /\ CorpusManager._validate_dataset Examples.id_of_name (Directory [])
     = Raise EmptyDirectoryError.
Proof.
  split; [|split].
  - apply (dataset_integrity Examples.id_of_name); [discriminate|].
    right. right. left. vm_compute. discriminate.
  - apply (dataset_integrity Examples.id_of_name); [discriminate | reflexivity | | reflexivity | reflexivity].
    vm_compute. repeat (apply List.Forall_cons; [discriminate|]). apply List.Forall_nil.
  - apply (dataset_integrity Examples.id_of_name). reflexivity.
Defined.

(** * Further properties of the code *)

(** ** Config validation: what is accepted, what each wrong field raises *)

Lemma all_match_https_true (l : list pyval) :
  all_match_https l = Ok true ->
  exists ss : list str,
    l = map PyStr ss /\ Forall (fun u => startswith (lit "https://") u = true) ss.
Proof.
  induction l as [|v l IH]; intros H.
  - exists []. split; [reflexivity | apply List.Forall_nil].
  - cbn [all_match_https] in H. destruct v; try discriminate H.
    cbn [re_match_https rbind] in H.
    destruct (startswith (lit "https://") s) eqn:Hs; [|discriminate H].
    destruct (IH H) as (ss & -> & Hall).
    exists (s :: ss). split; [reflexivity | apply List.Forall_cons; assumption].
Qed.

Lemma accepted_secure_urls (v : pyval) :
  seed_urls_accepted v = Ok true -> secure_urls v.
Proof.
  destruct v; try discriminate. intros H.
  destruct (all_match_https_true _ H) as (ss & -> & Hall). exists ss. auto.
Qed.

(** A validated count is an integer from 1 to 150, and no boolean. *)
Lemma count_checks_pass (total : pyval) :
  negb (isinstance_int total) || (int_value total <? 0) || isinstance_bool total = false ->
  (int_value total >? 150) || (int_value total <? 1) = false ->
  exists n, total = PyInt n /\ 1 <= n <= 150.
Proof.
  intros H1 H2. destruct total as [|[|]|z| | | |]; try discriminate H1.
  cbn [int_value] in H2. exists z. split; [reflexivity|].
  apply orb_false_iff in H2. destruct H2 as [Hhi Hlo].
  rewrite Z.gtb_ltb in Hhi. apply Z.ltb_ge in Hhi, Hlo. lia.
Qed.

(** What a document that validates holds. *)
Lemma validated_fields (conf : pyval) :
  _validate_config_content conf = Ok tt ->
  exists seed_urls total headers encoding verify headless timeout,
    holds conf seed_urls total headers encoding verify headless timeout
    /\ secure_urls seed_urls
    /\ (exists n, total = PyInt n /\ 1 <= n <= 150)
    /\ plain_fields_valid headers encoding verify headless
    /\ integer_strictly_between_0_and_60 timeout.
Proof.
  intros H. unfold _validate_config_content in H.
  destruct (getitem conf (lit "seed_urls")) as [seed_urls|] eqn:Hs; [|discriminate H].
  cbn [rbind] in H.
  destruct (seed_urls_accepted seed_urls) as [[|]|] eqn:Hacc; try discriminate H.
  cbn [rbind negb] in H.
  destruct (getitem conf (lit "total_articles_to_find_and_parse")) as [total|] eqn:Hn;
    [|discriminate H].
  cbn [rbind] in H.
  destruct (negb (isinstance_int total) || (int_value total <? 0) || isinstance_bool total)
    eqn:Hc1; [discriminate H|].
  destruct ((int_value total >? 150) || (int_value total <? 1)) eqn:Hc2; [discriminate H|].
  destruct (getitem conf (lit "headers")) as [headers|] eqn:Hh; [|discriminate H].
  cbn [rbind] in H.
  destruct (isinstance_dict headers) eqn:Hdict; [|discriminate H]. cbn [negb] in H.
  destruct (getitem conf (lit "encoding")) as [encoding|] eqn:He; [|discriminate H].
  cbn [rbind] in H.
  destruct (isinstance_str encoding) eqn:Hstr; [|discriminate H]. cbn [negb] in H.
  destruct (getitem conf (lit "should_verify_certificate")) as [verify|] eqn:Hv;
    [|discriminate H].
  cbn [rbind] in H.
  destruct (isinstance_bool verify) eqn:Hbv; [|discriminate H]. cbn [negb] in H.
  destruct (getitem conf (lit "headless_mode")) as [headless|] eqn:Hl; [|discriminate H].
  cbn [rbind] in H.
  destruct (isinstance_bool headless) eqn:Hbl; [|discriminate H]. cbn [negb] in H.
  destruct (getitem conf (lit "timeout")) as [timeout|] eqn:Ht; [|discriminate H].
  cbn [rbind] in H.
  destruct (negb (isinstance_int timeout)
            || (int_value timeout >=? 60) || (int_value timeout <=? 0)) eqn:Hc3;
    [discriminate H|].
  exists seed_urls, total, headers, encoding, verify, headless, timeout.
  split; [repeat split; assumption|].
  split; [exact (accepted_secure_urls _ Hacc)|].
  split; [exact (count_checks_pass _ Hc1 Hc2)|].
  split; [repeat split; assumption|].
  apply timeout_check. exact Hc3.
Qed.

(** X1. Validation succeeds exactly on the documents that hold, under the
    seven keys, a list of strings that all begin with https://, an integer
    count from 1 to 150 that is no boolean, a dictionary of headers, a
    string as encoding, two booleans as flags and an integer timeout
    strictly between 0 and 60. *)
Theorem validation_accepts_exactly (conf : pyval) :
  _validate_config_content conf = Ok tt
  <-> exists seed_urls total headers encoding verify headless timeout,
        holds conf seed_urls total headers encoding verify headless timeout
        /\ secure_urls seed_urls
        /\ (exists n, total = PyInt n /\ 1 <= n <= 150)
        /\ plain_fields_valid headers encoding verify headless
        /\ integer_strictly_between_0_and_60 timeout.
Proof.
  split.
  - apply validated_fields.
  - intros (seed_urls & total & headers & encoding & verify & headless & timeout
            & Hf & Hs & (n & -> & Hn) & (Hh & He & Hv & Hl) & Ht).
    destruct (validate_count _ _ _ _ _ _ _ _ Hf Hs n eq_refl) as (_ & _ & Hin).
    rewrite (Hin Hn), Hh, He, Hv, Hl. cbn [negb].
    apply timeout_check in Ht. rewrite Ht. reflexivity.
Qed.

(** X2. With well-formed seed URLs, a count that is not an integer (a
    string, a float, null, a list, a dictionary) or that is a boolean is
    rejected with IncorrectNumberOfArticlesError. *)
Theorem count_of_wrong_type conf seed_urls total headers encoding verify headless timeout :
  holds conf seed_urls total headers encoding verify headless timeout ->
  secure_urls seed_urls ->
  (forall n, total <> PyInt n) ->
  _validate_config_content conf = Raise IncorrectNumberOfArticlesError.
Proof.
  intros Hf Hs Hn.
  rewrite (validate_after_seed_urls _ _ _ _ _ _ _ _ Hf (secure_urls_accepted _ Hs)).
  destruct total as [|[|]|z| | | |]; try reflexivity. destruct (Hn z eq_refl).
Qed.

Lemma count_of_wrong_type_witness :
  _validate_config_content (Examples.document Examples.seeds (PyBool true) (PyInt 5))
  = Raise IncorrectNumberOfArticlesError
  /\ _validate_config_content (Examples.document Examples.seeds (PyFloat (lit "7.0")) (PyInt 5))
     = Raise IncorrectNumberOfArticlesError.
Proof.
  assert (Hs : secure_urls Examples.seeds)
    by secure_urls_here [lit "https://example.org/news?page=0"].
  split.
  - apply (count_of_wrong_type _ Examples.seeds (PyBool true) (PyDict ∅)
             (PyStr (lit "utf-8")) (PyBool true) (PyBool false) (PyInt 5));
      [concrete_fields | exact Hs | discriminate].
  - apply (count_of_wrong_type _ Examples.seeds (PyFloat (lit "7.0")) (PyDict ∅)
             (PyStr (lit "utf-8")) (PyBool true) (PyBool false) (PyInt 5));
      [concrete_fields | exact Hs | discriminate].
Defined.

(** X3. On a document with well-formed seed URLs and a valid count, the
    fields are checked in the order headers, encoding, flags: headers that
    are no dictionary raise IncorrectHeadersError; after that an encoding
    that is no string raises IncorrectEncodingError; after that a flag that
    is no boolean raises IncorrectVerifyError, whatever the timeout is. *)
Theorem later_field_errors conf seed_urls headers encoding verify headless timeout (n : Z) :
  holds conf seed_urls (PyInt n) headers encoding verify headless timeout ->
  secure_urls seed_urls ->
  1 <= n <= 150 ->
  (isinstance_dict headers = false ->
   _validate_config_content conf = Raise IncorrectHeadersError)
  /\ (isinstance_dict headers = true -> isinstance_str encoding = false ->
      _validate_config_content conf = Raise IncorrectEncodingError)
  /\ (isinstance_dict headers = true -> isinstance_str encoding = true ->
      isinstance_bool verify = false \/ isinstance_bool headless = false ->
      _validate_config_content conf = Raise IncorrectVerifyError).
Proof.
  intros Hf Hs Hn.
  destruct (validate_count _ _ _ _ _ _ _ _ Hf Hs n eq_refl) as (_ & _ & Hin).
  rewrite (Hin Hn). split; [|split].
  - intros ->. reflexivity.
  - intros -> ->. reflexivity.
  - intros -> -> [-> | ->]; [reflexivity|].
    cbn [negb]. destruct (isinstance_bool verify); reflexivity.
Qed.

Lemma later_field_errors_witness :
  _validate_config_content
    (PyDict (<[lit "headers" := PyList []]>
              (<[lit "seed_urls" := Examples.seeds]>
              (<[lit "total_articles_to_find_and_parse" := PyInt 5]>
              (<[lit "encoding" := PyInt 8]>
              (<[lit "should_verify_certificate" := PyInt 1]>
              (<[lit "headless_mode" := PyBool false]>
              (<[lit "timeout" := PyInt 0]> ∅))))))))
  = Raise IncorrectHeadersError.
Proof.
  assert (Hs : secure_urls Examples.seeds)
    by secure_urls_here [lit "https://example.org/news?page=0"].
  apply (later_field_errors _ Examples.seeds (PyList []) (PyInt 8) (PyInt 1) (PyBool false)
           (PyInt 0) 5); [concrete_fields | exact Hs | lia | reflexivity].
Defined.

Lemma getitem_dict_lookup (d : gmap str pyval) key v :
  getitem (PyDict d) key = Ok v -> d !! key = Some v.
Proof. unfold getitem. destruct (d !! key); congruence. Qed.

Ltac distinct_keys := let H := fresh in intros H; vm_compute in H; discriminate H.

(** X4. Every one of the seven keys is required: taking any of them out of
    a document that validates makes validation raise KeyError. *)
Theorem missing_key_raises (d : gmap str pyval) (key : str) :
  _validate_config_content (PyDict d) = Ok tt ->
  In key required_keys ->
  _validate_config_content (PyDict (delete key d)) = Raise KeyError.
Proof.
  intros Hvalid Hkey.
  destruct (validated_fields _ Hvalid)
    as (seed_urls & total & headers & encoding & verify & headless & timeout
        & (Hs & Hn & Hh & He & Hv & Hl & Ht) & Hsec & (n & -> & Hrange)
        & (Hdict & Hstr & Hbv & Hbl) & Htime).
  apply getitem_dict_lookup in Hs, Hn, Hh, He, Hv, Hl, Ht.
  apply secure_urls_accepted in Hsec. apply timeout_check in Htime.
  assert (Hc1 : (n <? 0) = false) by (apply Z.ltb_ge; lia).
  assert (Hc2 : (n >? 150) || (n <? 1) = false).
  { rewrite Z.gtb_ltb. apply orb_false_iff. split; apply Z.ltb_ge; lia. }
  unfold required_keys in Hkey. cbn [In] in Hkey.
  unfold _validate_config_content, getitem.
  repeat (destruct Hkey as [<- | Hkey];
    [ repeat (first [ rewrite lookup_delete_eq
                    | rewrite lookup_delete_ne by distinct_keys ];
              rewrite ?Hs, ?Hn, ?Hh, ?He, ?Hv, ?Hl, ?Ht; cbn [rbind];
              rewrite ?Hsec; cbn [rbind negb isinstance_int isinstance_bool int_value orb];
              rewrite ?Hc1, ?Hc2, ?Hdict, ?Hstr, ?Hbv, ?Hbl, ?Htime; cbn [negb]);
      reflexivity | ]).
  destruct Hkey.
Qed.

Lemma missing_key_raises_witness :
  _validate_config_content
    (PyDict (delete (lit "timeout")
               (<[lit "seed_urls" := Examples.seeds]>
               (<[lit "total_articles_to_find_and_parse" := PyInt 5]>
               (<[lit "headers" := PyDict ∅]>
               (<[lit "encoding" := PyStr (lit "utf-8")]>
               (<[lit "timeout" := PyInt 5]>
               (<[lit "should_verify_certificate" := PyBool true]>
               (<[lit "headless_mode" := PyBool false]> ∅)))))))))
  = Raise KeyError.
Proof.
  apply missing_key_raises; [vm_compute; reflexivity|].
  unfold required_keys. cbn [In]. do 6 right. left. reflexivity.
Defined.

(** ** Construction of the crawlers *)

Lemma split_head_decompose (sep : N) (s : str) :
  exists rest, s = split_head sep s ++ rest /\ (rest = [] \/ exists q, rest = sep :: q).
Proof.
  induction s as [|c s IH].
  - exists []. split; [reflexivity | left; reflexivity].
  - cbn [split_head]. destruct (N.eqb_spec c sep) as [->|Hne].
    + exists (sep :: s). split; [reflexivity | right; exists s; reflexivity].
    + destruct IH as (rest & Hs & Hrest). exists rest.
      split; [cbn [app]; congruence | exact Hrest].
Qed.

Lemma split_head_free (sep : N) (s : str) : ~ In sep (split_head sep s).
Proof.
  induction s as [|c s IH]; [intros []|].
  cbn [split_head]. destruct (N.eqb_spec c sep) as [->|Hne]; [intros []|].
  intros [Heq | Hin]; [congruence | exact (IH Hin)].
Qed.

(** X5. A crawler cannot be built from a configuration without seed URLs:
    the constructor raises IndexError, and only then. Otherwise the crawler
    starts with no collected URL, and its base pattern is the first seed URL
    up to its first question mark: the pattern has no question mark, and
    what follows it in the seed is nothing or begins with one. *)
Theorem crawler_init_pattern (config : Config) :
  (Crawler.__init__ config = Raise IndexError <-> _seed_urls config = [])
  /\ (forall first others, _seed_urls config = first :: others ->
      exists self rest,
        Crawler.__init__ config = Ok self
        /\ Crawler.config self = config
        /\ Crawler.urls self = []
        /\ first = Crawler.url_pattern self ++ rest
        /\ ~ In 63%N (Crawler.url_pattern self)
        /\ (rest = [] \/ exists q, rest = 63%N :: q)).
Proof.
  unfold Crawler.__init__. split.
  - destruct (_seed_urls config); split; congruence.
  - intros first others ->.
    destruct (split_head_decompose 63 first) as (rest & Hfirst & Hrest).
    eexists. exists rest. split; [reflexivity|].
    cbn [Crawler.config Crawler.urls Crawler.url_pattern].
    repeat split; [exact Hfirst | apply split_head_free | exact Hrest].
Qed.

Lemma drop_last_app (body : str) (c : N) : CrawlerRecursive.drop_last (body ++ [c]) = body.
Proof.
  unfold CrawlerRecursive.drop_last. rewrite length_app. cbn [length].
  replace (length body + 1 - 1)%nat with (length body) by lia.
  apply take_app_length.
Qed.

(** X6. The paginated crawler built from a configuration with a seed URL
    has the crawler of that configuration as its base, and the first seed
    URL without its last character as start address; when that character is
    the digit 0, the address of the listing page of index 0 is the seed URL
    itself. *)
Theorem recursive_init_start_url (config : Config) first others :
  _seed_urls config = first :: others ->
  exists self,
    CrawlerRecursive.__init__ config = Ok self
    /\ Crawler.__init__ config = Ok (CrawlerRecursive.base self)
    /\ CrawlerRecursive.inforced_stop self = false
    /\ (forall body c, first = body ++ [c] ->
        CrawlerRecursive.start_url self = body
        /\ (c = 48%N -> page_url self 0 = first)).
Proof.
  intros Hseeds. unfold CrawlerRecursive.__init__, Crawler.__init__. rewrite Hseeds.
  cbn [rbind]. eexists. split; [reflexivity|].
  cbn [CrawlerRecursive.base CrawlerRecursive.inforced_stop CrawlerRecursive.start_url].
  split; [reflexivity | split; [reflexivity|]].
  intros body c ->. rewrite drop_last_app. split; [reflexivity|].
  intros ->. reflexivity.
Qed.

Lemma recursive_init_start_url_witness :
  exists self,
    CrawlerRecursive.__init__ Examples.configuration = Ok self
    /\ CrawlerRecursive.start_url self = lit "https://example.org/news?page="
    /\ page_url self 0 = lit "https://example.org/news?page=0".
Proof.
  destruct (recursive_init_start_url Examples.configuration
              (lit "https://example.org/news?page=0") [] eq_refl)
    as (self & Hinit & _ & _ & Hstart).
  exists self. split; [exact Hinit|].
  destruct (Hstart (lit "https://example.org/news?page=") 48%N eq_refl) as [Hs Hp].
  split; [exact Hs | exact (Hp eq_refl)].
Defined.

(** ** Which link the extraction takes, and what a crawl keeps *)

Lemma not_in_urls_string (h : str) (urls : list str) :
  Crawler.not_in_urls (Some (AttrStr h)) urls = true <-> ~ In h urls.
Proof.
  cbn [Crawler.not_in_urls]. rewrite negb_true_iff. split.
  - intros Hex Hin. apply not_true_iff_false in Hex. apply Hex.
    apply existsb_exists. exists h. split; [exact Hin | apply bool_decide_eq_true_2; reflexivity].
  - intros Hin. apply not_true_iff_false. intros Hex.
    apply existsb_exists in Hex. destruct Hex as (x & Hx & Heq).
    apply bool_decide_eq_true_1 in Heq. subst x. exact (Hin Hx).
Qed.

(** X7. The extraction takes the first marked link whose address is not
    among the collected URLs: links that are not marked, and marked links
    whose [href] is already collected, are passed over, and the result is
    the base pattern followed by that [href] without its first five
    characters. *)
Theorem extract_url_first_fresh_link self article_bs before link after (h : str) :
  Crawler.links article_bs = before ++ link :: after ->
  Forall (fun l => Crawler.marked l = false
                   \/ exists h', get l (lit "href") = Some (AttrStr h')
                                 /\ In h' (Crawler.urls self)) before ->
  Crawler.marked link = true ->
  get link (lit "href") = Some (AttrStr h) ->
  ~ In h (Crawler.urls self) ->
  Crawler._extract_url self article_bs
  = Ok (Crawler.url_pattern self ++ drop (length (lit "/news")) h).
Proof.
  intros Hlinks Hbefore Hmarked Hhref Hfresh.
  unfold Crawler._extract_url. rewrite Hlinks.
  assert (Hloop : forall url,
             Crawler._extract_url_loop (Crawler.urls self) url (before ++ link :: after)
             = Some (AttrStr h)).
  { clear Hlinks. induction Hbefore as [|l before Hl _ IH]; intros url.
    - cbn [app Crawler._extract_url_loop]. rewrite Hmarked, Hhref.
      apply not_in_urls_string in Hfresh. rewrite Hfresh. reflexivity.
    - cbn [app Crawler._extract_url_loop]. destruct Hl as [Hl | (h' & Hh' & Hin)].
      + rewrite Hl. apply IH.
      + destruct (Crawler.marked l); [|apply IH]. rewrite Hh'.
        destruct (Crawler.not_in_urls (Some (AttrStr h')) (Crawler.urls self)) eqn:Hn;
          [|apply IH].
        apply not_in_urls_string in Hn. contradiction. }
  rewrite Hloop. reflexivity.
Qed.

Lemma extract_url_first_fresh_link_witness :
  Crawler._extract_url
    (Crawler.extend Examples.crawler [lit "/news/first"]) Examples.page_three_links
  = Ok (lit "https://example.org/news/second").
Proof.
  apply (extract_url_first_fresh_link
           (Crawler.extend Examples.crawler [lit "/news/first"]) Examples.page_three_links
           [Examples.more_link (lit "/news/first")] (Examples.more_link (lit "/news/second"))
           [Examples.more_link (lit "/news/third")] (lit "/news/second")).
  - reflexivity.
  - apply List.Forall_cons; [|apply List.Forall_nil].
    right. exists (lit "/news/first"). split; [reflexivity | left; reflexivity].
  - reflexivity.
  - reflexivity.
  - intros [H | []]. vm_compute in H. discriminate H.
Defined.

Lemma extract_url_begins_with_pattern self article_bs u :
  Crawler._extract_url self article_bs = Ok u ->
  exists t, u = Crawler.url_pattern self ++ t.
Proof.
  unfold Crawler._extract_url.
  destruct (Crawler._extract_url_loop _ _ _) as [[h|]|]; try discriminate.
  intros [= <-]. eexists. reflexivity.
Qed.

Section CrawlFacts.
Variable BeautifulSoup : str -> str -> node.
Variable requests_get : network.

Local Abbreviation loop := (Crawler.find_articles_loop BeautifulSoup requests_get).
Local Abbreviation soup response := (BeautifulSoup (text response) (lit "html.parser")).

(** X8. Whatever the pages answer and however the loop over the pages ends,
    the crawler keeps its configuration and its base pattern, and the URLs
    it had collected stay in place at the front: the URLs added come after
    them, each begins with the base pattern, and they come in tens, at most
    ten per page. *)
Theorem crawl_invariants pages : forall self log,
  let after := state_of (loop self pages log) in
  Crawler.config after = Crawler.config self
  /\ Crawler.url_pattern after = Crawler.url_pattern self
  /\ exists found,
       Crawler.urls after = Crawler.urls self ++ found
       /\ Forall (fun u => exists t, u = Crawler.url_pattern self ++ t) found
       /\ exists k, (k <= length pages)%nat /\ length found = (10 * k)%nat.
Proof.
  induction pages as [|page pages IH]; intros self log after.
  - subst after. cbn. repeat split. exists []. rewrite app_nil_r.
    repeat split; [apply List.Forall_nil | exists 0%nat; split; reflexivity].
  - assert (Hstay : state_of (loop self (page :: pages) log) = self ->
              Crawler.config after = Crawler.config self
              /\ Crawler.url_pattern after = Crawler.url_pattern self
              /\ exists found,
                   Crawler.urls after = Crawler.urls self ++ found
                   /\ Forall (fun u => exists t, u = Crawler.url_pattern self ++ t) found
                   /\ exists k, (k <= length (page :: pages))%nat
                                /\ length found = (10 * k)%nat).
    { intros Hst. subst after. rewrite Hst. repeat split. exists []. rewrite app_nil_r.
      repeat split; [apply List.Forall_nil | exists 0%nat; split; [lia | reflexivity]]. }
    destruct (requests_get log page (Crawler.config self)) as [response|e] eqn:Hreq;
      [|apply Hstay; rewrite (loop_request_raises _ _ _ _ _ _ _ Hreq); reflexivity].
    destruct (ok response) eqn:Hok.
    + destruct (Crawler._extract_url self (soup response)) as [u|e] eqn:Hu;
        [|apply Hstay; rewrite (loop_extract_raises _ _ _ _ _ _ _ _ Hreq Hok Hu); reflexivity].
      subst after. rewrite (loop_extends _ _ _ _ _ _ _ _ Hreq Hok Hu).
      destruct (IH (Crawler.extend self (repeat u 10)) (log ++ [page]))
        as (Hc & Hp & found & Hurls & Hall & k & Hk & Hlen).
      cbn [Crawler.extend Crawler.config Crawler.url_pattern Crawler.urls] in Hc, Hp, Hurls, Hall.
      split; [exact Hc | split; [exact Hp|]].
      exists (repeat u 10 ++ found). split; [rewrite Hurls, <- app_assoc; reflexivity|].
      split.
      * apply Forall_app. split; [|exact Hall].
        destruct (extract_url_begins_with_pattern _ _ _ Hu) as [t Ht].
        apply Forall_forall. intros x Hx. apply list_elem_of_In, repeat_spec in Hx.
        subst x. exists t. exact Ht.
      * exists (S k). split; [cbn [length]; lia|].
        rewrite length_app, repeat_length, Hlen. lia.
    + subst after. rewrite (loop_skips _ _ _ _ _ _ _ Hreq Hok).
      destruct (IH self (log ++ [page])) as (Hc & Hp & found & Hurls & Hall & k & Hk & Hlen).
      split; [exact Hc | split; [exact Hp|]].
      exists found. split; [exact Hurls | split; [exact Hall|]].
      exists k. split; [cbn [length]; lia | exact Hlen].
Qed.

(** X9. The flat crawler asks for its seed URLs in the order of the
    configuration, one request each: the requests issued are always an
    initial part of the list of seed URLs, they are the whole list when the
    run returns, and the run returns when no request and no extraction
    raises. *)
Theorem flat_crawl_order self log :
  let run := Crawler.find_articles BeautifulSoup requests_get self log in
  let seed_urls := _seed_urls (Crawler.config self) in
  (exists k, (k <= length seed_urls)%nat /\ log_of run = log ++ take k seed_urls)
  /\ (outcome run = Ok tt -> log_of run = log ++ seed_urls)
  /\ ((forall log url, returns (requests_get log url (Crawler.config self))) ->
      (forall crawler log url response,
         Crawler.config crawler = Crawler.config self ->
         requests_get log url (Crawler.config self) = Ok response ->
         ok response = true ->
         returns (Crawler._extract_url crawler (soup response))) ->
      outcome run = Ok tt).
Proof.
  intros run seed_urls. subst run. unfold Crawler.find_articles, Crawler.get_search_urls.
  fold seed_urls.
  destruct (loop_log BeautifulSoup requests_get seed_urls self log) as (k & Hk & Hlog & Hout).
  split; [|split].
  - exists k. split; assumption.
  - intros Hret. rewrite Hlog, (Hout Hret), firstn_all. reflexivity.
  - intros Hnet Hext.
    apply (loop_returns BeautifulSoup requests_get (Crawler.config self)); auto.
Qed.

(** X10. When every page answers with a non-success response, the loop over
    the pages returns normally after asking for each page, and the crawler
    is as it was: nothing has been collected. *)
Theorem all_pages_skipped self :
  (forall log url, exists response,
      requests_get log url (Crawler.config self) = Ok response /\ ok response = false) ->
  forall pages log, loop self pages log = (Ok tt, self, log ++ pages).
Proof.
  intros Hnet pages. induction pages as [|page pages IH]; intros log.
  - cbn. rewrite app_nil_r. reflexivity.
  - destruct (Hnet log page) as (response & Hreq & Hok).
    rewrite (loop_skips _ _ _ _ _ _ _ Hreq Hok), IH, <- app_assoc. reflexivity.
Qed.

End CrawlFacts.

Lemma all_pages_skipped_witness :
  Crawler.find_articles_loop Examples.soup_of (Examples.constant_site 503 []) Examples.crawler
    [lit "https://example.org/a"; lit "https://example.org/b"] []
  = (Ok tt, Examples.crawler, [lit "https://example.org/a"; lit "https://example.org/b"]).
Proof.
  apply (all_pages_skipped Examples.soup_of (Examples.constant_site 503 []) Examples.crawler).
  intros log url. eexists. split; reflexivity.
Defined.

(** X11. When the page answered to the first request of the paginated
    crawler advertises a last page index that is zero or negative, no
    listing page is asked for: the run returns normally after its first
    request, with the crawler unchanged. *)
Theorem no_page_for_nonpositive_index
    (BeautifulSoup : str -> str -> node) (requests_get : network) (int : str -> result Z)
    self log response (N : Z) :
  requests_get log (CrawlerRecursive.start_url self) (configuration_of self) = Ok response ->
  ok response = true ->
  CrawlerRecursive.read_last_page int (BeautifulSoup (text response) (lit "html.parser"))
  = Ok N ->
  N <= 0 ->
  CrawlerRecursive.find_articles BeautifulSoup requests_get int self log
  = (Ok tt, self, log ++ [CrawlerRecursive.start_url self]).
Proof.
  intros Hreq Hok HN Hle.
  rewrite (run_after_bootstrap _ _ _ _ _ _ Hreq), Hok, HN.
  unfold range. replace (Z.to_nat (N - 0)) with 0%nat by lia.
  destruct self. reflexivity.
Qed.

Lemma no_page_for_nonpositive_index_witness :
  CrawlerRecursive.find_articles
    (fun _ _ => Examples.page_with_pager (lit "-3")) (Examples.constant_site 200 [])
    int_decimal Examples.crawler_recursive []
  = (Ok tt, Examples.crawler_recursive, [lit "https://example.org/news?page="]).
Proof.
  apply (no_page_for_nonpositive_index
           (fun _ _ => Examples.page_with_pager (lit "-3")) (Examples.constant_site 200 [])
           int_decimal Examples.crawler_recursive [] {| status_code := 200; text := [] |} (-3));
    [reflexivity | reflexivity | vm_compute; reflexivity | lia].
Defined.

Lemma crawler_init_pattern_witness :
  exists self,
    Crawler.__init__ Examples.configuration = Ok self
    /\ Crawler.url_pattern self = lit "https://example.org/news".
Proof.
  destruct (proj2 (crawler_init_pattern Examples.configuration)
              (lit "https://example.org/news?page=0") [] eq_refl)
    as (self & rest & Hinit & _).
  exists self. split; [exact Hinit|].
  injection Hinit as <-. reflexivity.
Defined.

Lemma flat_crawl_order_witness :
  log_of (Crawler.find_articles Examples.soup_of
            (Examples.constant_site 200 (lit "three links")) Examples.crawler [])
  = [lit "https://example.org/news?page=0"].
Proof.
  destruct (flat_crawl_order Examples.soup_of
              (Examples.constant_site 200 (lit "three links")) Examples.crawler [])
    as (_ & Hlog & _).
  apply Hlog. reflexivity.
Defined.

(** ** What the article parser fills in, and what stops it *)

Lemma fold_paragraphs (blocks : list node) : forall raw_text : str,
  fold_left (fun raw_text text_block =>
               match string_of text_block with
               | None | Some [] => raw_text
               | Some s => raw_text ++ 10%N :: s
               end) blocks raw_text
  = raw_text
    ++ concat (map (fun s => 10%N :: s)
                 (flat_map (fun text_block =>
                              match string_of text_block with
                              | None | Some [] => []
                              | Some s => [s]
                              end) blocks)).
Proof.
  induction blocks as [|b blocks IH]; intros raw_text.
  - cbn. rewrite app_nil_r. reflexivity.
  - cbn [fold_left flat_map]. rewrite IH.
    destruct (string_of b) as [[|c s]|]; cbn [app map concat]; [reflexivity| |reflexivity].
    rewrite <- app_assoc. reflexivity.
Qed.

(** What the text pass stores when the page has a headline. *)
Lemma text_pass_facts (self : HTMLParser.HTMLParser) (article_soup : node) :
  (find None [(lit "itemprop", lit "headline")] article_soup = None ->
   HTMLParser._fill_article_with_text self article_soup = Raise AttributeError)
  /\ (forall headline,
        find None [(lit "itemprop", lit "headline")] article_soup = Some headline ->
        exists after,
          HTMLParser._fill_article_with_text self article_soup = Ok after
          /\ Article.text (HTMLParser.article after)
             = Assigned (HTMLParser.format_string (string_of headline)
                         ++ concat (map (fun s => 10%N :: s) (paragraph_strings article_soup)))
          /\ Article.url (HTMLParser.article after) = Article.url (HTMLParser.article self)
          /\ Article.article_id (HTMLParser.article after)
             = Article.article_id (HTMLParser.article self)).
Proof.
  unfold HTMLParser._fill_article_with_text. split.
  - intros ->. reflexivity.
  - intros headline ->. eexists. split; [reflexivity|].
    cbn [HTMLParser.article HTMLParser.with_article Article.text Article.url
         Article.article_id].
    rewrite fold_paragraphs. repeat split.
Qed.

(** X13. The text pass succeeds exactly when the page has a headline
    element; without one it raises AttributeError. The text it stores is the
    string of the headline (the word None when the headline has no single
    string) followed, in document order, by each paragraph that has a
    non-empty string, each preceded by a line break; nothing else of the
    record changes. The string of an element is that of [tag.string]: a
    comment counts among the children of the element and is its string when
    it is the only child, so that a headline with a text and a comment gives
    the word None, and a paragraph that holds only a comment gives the text
    of the comment. *)
Theorem text_pass_result (self : HTMLParser.HTMLParser) (article_soup : node) :
  (find None [(lit "itemprop", lit "headline")] article_soup = None ->
   HTMLParser._fill_article_with_text self article_soup = Raise AttributeError)
  /\ (forall headline,
        find None [(lit "itemprop", lit "headline")] article_soup = Some headline ->
        exists after,
          HTMLParser._fill_article_with_text self article_soup = Ok after
          /\ Article.text (HTMLParser.article after)
             = Assigned (HTMLParser.format_string (string_of headline)
                         ++ concat (map (fun s => 10%N :: s) (paragraph_strings article_soup)))
          /\ HTMLParser.full_url after = HTMLParser.full_url self
          /\ HTMLParser.article_id after = HTMLParser.article_id self
          /\ HTMLParser.config after = HTMLParser.config self
          /\ Article.url (HTMLParser.article after) = Article.url (HTMLParser.article self)
          /\ Article.article_id (HTMLParser.article after)
             = Article.article_id (HTMLParser.article self)
          /\ Article.title (HTMLParser.article after) = Article.title (HTMLParser.article self)
          /\ Article.date (HTMLParser.article after) = Article.date (HTMLParser.article self)
          /\ Article.author (HTMLParser.article after)
             = Article.author (HTMLParser.article self)
          /\ Article.topics (HTMLParser.article after)
             = Article.topics (HTMLParser.article self)).
Proof.
  unfold HTMLParser._fill_article_with_text. split.
  - intros ->. reflexivity.
  - intros headline ->. eexists. split; [reflexivity|].
    cbn [HTMLParser.article HTMLParser.with_article Article.text HTMLParser.full_url
         HTMLParser.article_id HTMLParser.config Article.url Article.article_id
         Article.title Article.date Article.author Article.topics].
    rewrite fold_paragraphs. repeat split.
Qed.

Lemma text_pass_result_witness :
  (exists after,
     HTMLParser._fill_article_with_text
       (HTMLParser.__init__ (lit "https://example.org/news/first") 1 Examples.configuration)
       (Examples.article_page (lit "2023-05-01 12:00:00")) = Ok after
     /\ Article.text (HTMLParser.article after)
        = Assigned (lit "Headline" ++ 10%N :: lit "Body"))
  /\ (exists after,
        HTMLParser._fill_article_with_text
          (HTMLParser.__init__ (lit "https://example.org/news/first") 1
             Examples.configuration)
          MoreExamples.commented_article_page = Ok after
        /\ Article.text (HTMLParser.article after)
           = Assigned (lit "None" ++ 10%N :: lit "hidden" ++ 10%N :: lit "Body")).
Proof.
  split.
  - destruct (proj2 (text_pass_result
                (HTMLParser.__init__ (lit "https://example.org/news/first") 1
                   Examples.configuration)
                (Examples.article_page (lit "2023-05-01 12:00:00")))
                (Tag (lit "h1") [(lit "itemprop", AttrStr (lit "headline"))]
                   [NavigableString (lit "Headline")]) eq_refl)
      as (after & Hfill & Htext & _).
    exists after. split; [exact Hfill | exact Htext].
  - destruct (proj2 (text_pass_result
                (HTMLParser.__init__ (lit "https://example.org/news/first") 1
                   Examples.configuration)
                MoreExamples.commented_article_page)
                (Tag (lit "h1") [(lit "itemprop", AttrStr (lit "headline"))]
                   [NavigableString (lit "Head"); Comment (lit "x")]) eq_refl)
      as (after & Hfill & Htext & _).
    exists after. split; [exact Hfill | exact Htext].
Defined.

Section ParseFacts.
Variable BeautifulSoup : str -> str -> node.
Variable requests_get : network.
Variable strptime : str -> str -> result datetime.

Local Abbreviation parse := (HTMLParser.parse BeautifulSoup requests_get strptime).
Local Abbreviation soup response := (BeautifulSoup (text response) (lit "lxml")).
Local Abbreviation meta_pass :=
  (HTMLParser._fill_article_with_meta_information strptime).

(** [parse] on a page that was fetched. *)
Lemma parse_fetched self log response :
  requests_get log (HTMLParser.full_url self) (HTMLParser.config self) = Ok response ->
  ok response = true ->
  parse self log
  = ((let* self := HTMLParser._fill_article_with_text self (soup response) in
      let* self := meta_pass self (soup response) in
      Ok (HTMLParser.article self))%py,
     log ++ [HTMLParser.full_url self]).
Proof.
  intros Hreq Hok. unfold HTMLParser.parse, make_request. rewrite Hreq, Hok. reflexivity.
Qed.

(** What the metadata pass stores when it returns. *)
Lemma meta_pass_returns self article_soup after :
  meta_pass self article_soup = Ok after ->
  exists headline published d when strong topic_field more,
    find None [(lit "itemprop", lit "headline")] article_soup = Some headline
    /\ find None [(lit "itemprop", lit "datePublished")] article_soup = Some published
    /\ get published (lit "datetime") = Some (AttrStr d)
    /\ strptime d (lit "%Y-%m-%d %H:%M:%S") = Ok when
    /\ findAll (Some (lit "strong")) [] article_soup !! 1%nat = Some strong
    /\ findAll None [(lit "class", HTMLParser.topic_class)] article_soup = topic_field :: more
    /\ after = HTMLParser.with_article self
         {| Article.url := Article.url (HTMLParser.article self);
            Article.article_id := Article.article_id (HTMLParser.article self);
            Article.title := Assigned (string_of headline);
            Article.text := Article.text (HTMLParser.article self);
            Article.date := Assigned when;
            Article.author :=
              Assigned (match string_of strong with
                        | None | Some [] => [lit "NOT FOUND"]
                        | Some author => [author]
                        end);
            Article.topics :=
              Assigned (map string_of (findAll (Some (lit "a")) [] topic_field)) |}.
Proof.
  unfold HTMLParser._fill_article_with_meta_information, tag_getitem,
    HTMLParser.unify_date_format.
  destruct (find None [(lit "itemprop", lit "headline")] article_soup) as [headline|] eqn:Hh;
    [|discriminate].
  destruct (find None [(lit "itemprop", lit "datePublished")] article_soup)
    as [published|] eqn:Hp; [|discriminate].
  destruct (get published (lit "datetime")) as [[d|]|] eqn:Hd; try discriminate.
  cbn [rbind].
  destruct (strptime d (lit "%Y-%m-%d %H:%M:%S")) as [when|] eqn:Hw; [|discriminate].
  cbn [rbind].
  destruct (findAll (Some (lit "strong")) [] article_soup !! 1%nat) as [strong|] eqn:Hs;
    [|discriminate].
  destruct (findAll None [(lit "class", HTMLParser.topic_class)] article_soup)
    as [|topic_field more] eqn:Ht; [discriminate|].
  intros [= <-]. exists headline, published, d, when, strong, topic_field, more.
  repeat split; assumption.
Qed.

(** X12. An article that [parse] returns for a page fetched with success
    keeps the URL and the id of the record, and has every field assigned:
    the title is the string of the headline element, the date is what
    [strptime] made of the [datetime] attribute of the date element, the
    author list has exactly one name, never empty, which is NOT FOUND when
    the second [strong] element has no non-empty string, and there is one
    topic per link of the first topic container. The string of an element
    is that of [tag.string], for which a comment is a child and a string
    like a text: the title is None when the headline holds a text and a
    comment, and a comment that is the only child of the second [strong]
    element is the name of the author. *)
Theorem parsed_article_shape self log response a log' :
  requests_get log (HTMLParser.full_url self) (HTMLParser.config self) = Ok response ->
  ok response = true ->
  parse self log = (Ok a, log') ->
  log' = log ++ [HTMLParser.full_url self]
  /\ Article.url a = Article.url (HTMLParser.article self)
  /\ Article.article_id a = Article.article_id (HTMLParser.article self)
  /\ (exists body, Article.text a = Assigned body)
  /\ (exists headline,
        find None [(lit "itemprop", lit "headline")] (soup response) = Some headline
        /\ Article.title a = Assigned (string_of headline))
  /\ (exists published d when,
        find None [(lit "itemprop", lit "datePublished")] (soup response) = Some published
        /\ get published (lit "datetime") = Some (AttrStr d)
        /\ strptime d (lit "%Y-%m-%d %H:%M:%S") = Ok when
        /\ Article.date a = Assigned when)
  /\ (exists strong name,
        findAll (Some (lit "strong")) [] (soup response) !! 1%nat = Some strong
        /\ Article.author a = Assigned [name]
        /\ name <> []
        /\ (string_of strong = Some name
            \/ (name = lit "NOT FOUND"
                /\ (string_of strong = None \/ string_of strong = Some []))))
  /\ (exists topic_field more,
        findAll None [(lit "class", HTMLParser.topic_class)] (soup response)
        = topic_field :: more
        /\ Article.topics a
           = Assigned (map string_of (findAll (Some (lit "a")) [] topic_field))).
Proof.
  intros Hreq Hok. rewrite (parse_fetched _ _ _ Hreq Hok). intros Hparse.
  apply pair_equal_spec in Hparse. destruct Hparse as [Hparse <-].
  split; [reflexivity|].
  destruct (HTMLParser._fill_article_with_text self (soup response)) as [self1|] eqn:Htext;
    cbn [rbind] in Hparse; [|discriminate Hparse].
  destruct (meta_pass self1 (soup response)) as [self2|] eqn:Hmeta;
    cbn [rbind] in Hparse; [|discriminate Hparse].
  injection Hparse as <-.
  destruct (meta_pass_returns _ _ _ Hmeta)
    as (headline & published & d & when & strong & topic_field & more
        & Hh & Hp & Hd & Hw & Hs & Ht & ->).
  destruct (proj2 (text_pass_facts self (soup response)) headline Hh)
    as (after & Hafter & Hbody & Hurl & Hid).
  rewrite Htext in Hafter. injection Hafter as <-.
  cbn [HTMLParser.article HTMLParser.with_article Article.url Article.article_id
       Article.text Article.title Article.date Article.author Article.topics].
  split; [exact Hurl | split; [exact Hid|]].
  split; [eexists; exact Hbody|].
  split; [exists headline; split; [exact Hh | reflexivity]|].
  split; [exists published, d, when; repeat split; assumption|].
  split; [|exists topic_field, more; split; [exact Ht | reflexivity]].
  exists strong. destruct (string_of strong) as [[|c name]|].
  - exists (lit "NOT FOUND"). repeat split; [exact Hs | discriminate | right; auto].
  - exists (c :: name). repeat split; [exact Hs | discriminate | left; reflexivity].
  - exists (lit "NOT FOUND"). repeat split; [exact Hs | discriminate | right; auto].
Qed.

(** X14. On a page fetched with success, [parse] raises, in this order of
    precedence: AttributeError when the page has no headline element;
    TypeError when it has no date element; KeyError when the date element
    has no [datetime] attribute; and, once the date is read, IndexError when
    the page has fewer than two [strong] elements or, with those present, no
    topic container. *)
Theorem parse_failures self log response :
  requests_get log (HTMLParser.full_url self) (HTMLParser.config self) = Ok response ->
  ok response = true ->
  let raises e := parse self log = (Raise e, log ++ [HTMLParser.full_url self]) in
  (find None [(lit "itemprop", lit "headline")] (soup response) = None ->
   raises AttributeError)
  /\ (forall headline,
        find None [(lit "itemprop", lit "headline")] (soup response) = Some headline ->
        (find None [(lit "itemprop", lit "datePublished")] (soup response) = None ->
         raises TypeError)
        /\ (forall published,
              find None [(lit "itemprop", lit "datePublished")] (soup response)
              = Some published ->
              (get published (lit "datetime") = None -> raises KeyError)
              /\ (forall d when,
                    get published (lit "datetime") = Some (AttrStr d) ->
                    strptime d (lit "%Y-%m-%d %H:%M:%S") = Ok when ->
                    (findAll (Some (lit "strong")) [] (soup response) !! 1%nat = None ->
                     raises IndexError)
                    /\ (forall strong,
                          findAll (Some (lit "strong")) [] (soup response) !! 1%nat
                          = Some strong ->
                          findAll None [(lit "class", HTMLParser.topic_class)]
                            (soup response) = [] ->
                          raises IndexError)))).
Proof.
  intros Hreq Hok raises. subst raises. cbv beta.
  rewrite (parse_fetched _ _ _ Hreq Hok).
  unfold HTMLParser._fill_article_with_text,
    HTMLParser._fill_article_with_meta_information, tag_getitem,
    HTMLParser.unify_date_format.
  split; [intros ->; reflexivity|].
  intros headline ->. cbn [rbind]. split; [intros ->; reflexivity|].
  intros published ->. split; [intros ->; reflexivity|].
  intros d when Hd Hw. rewrite Hd. cbn [rbind]. rewrite Hw. cbn [rbind].
  split; [intros ->; reflexivity|].
  intros strong -> ->. reflexivity.
Qed.

End ParseFacts.

Lemma parsed_article_shape_witness :
  HTMLParser.parse (fun _ _ => MoreExamples.full_article_page)
    (Examples.constant_site 200 []) Strptime.strptime
    (HTMLParser.__init__ (lit "https://example.org/news/first") 7 Examples.configuration) []
  = (Ok MoreExamples.full_article_record, [lit "https://example.org/news/first"])
  /\ Article.article_id MoreExamples.full_article_record = 7
  /\ (exists strong name,
        findAll (Some (lit "strong")) [] MoreExamples.full_article_page !! 1%nat = Some strong
        /\ Article.author MoreExamples.full_article_record = Assigned [name]
        /\ name <> []
        /\ (string_of strong = Some name
            \/ (name = lit "NOT FOUND"
                /\ (string_of strong = None \/ string_of strong = Some []))))
  /\ exists headline,
       find None [(lit "itemprop", lit "headline")] MoreExamples.commented_article_page
       = Some headline
       /\ Article.title MoreExamples.commented_article_record
          = Assigned (string_of headline).
Proof.
  assert (Hparse :
    HTMLParser.parse (fun _ _ => MoreExamples.full_article_page)
      (Examples.constant_site 200 []) Strptime.strptime
      (HTMLParser.__init__ (lit "https://example.org/news/first") 7 Examples.configuration) []
    = (Ok MoreExamples.full_article_record, [lit "https://example.org/news/first"]))
    by (vm_compute; reflexivity).
  assert (Hcommented :
    HTMLParser.parse (fun _ _ => MoreExamples.commented_article_page)
      (Examples.constant_site 200 []) Strptime.strptime
      (HTMLParser.__init__ (lit "https://example.org/news/first") 7 Examples.configuration) []
    = (Ok MoreExamples.commented_article_record, [lit "https://example.org/news/first"]))
    by (vm_compute; reflexivity).
  split; [exact Hparse|].
  destruct (parsed_article_shape (fun _ _ => MoreExamples.full_article_page)
              (Examples.constant_site 200 []) Strptime.strptime
              (HTMLParser.__init__ (lit "https://example.org/news/first") 7
                 Examples.configuration) []
              {| status_code := 200; text := [] |} _ _ eq_refl eq_refl Hparse)
    as (_ & _ & Hid & _ & _ & _ & Hauthor & _).
  split; [exact Hid|]. split; [exact Hauthor|].
  destruct (parsed_article_shape (fun _ _ => MoreExamples.commented_article_page)
              (Examples.constant_site 200 []) Strptime.strptime
              (HTMLParser.__init__ (lit "https://example.org/news/first") 7
                 Examples.configuration) []
              {| status_code := 200; text := [] |} _ _ eq_refl eq_refl Hcommented)
    as (_ & _ & _ & _ & Htitle & _).
  exact Htitle.
Defined.

Lemma parse_failures_witness :
  HTMLParser.parse (fun _ _ => Examples.article_page (lit "2023-05-01 12:00:00"))
    (Examples.constant_site 200 []) Strptime.strptime
    (HTMLParser.__init__ (lit "https://example.org/news/first") 7 Examples.configuration) []
  = (Raise IndexError, [lit "https://example.org/news/first"]).
Proof.
  destruct (parse_failures (fun _ _ => Examples.article_page (lit "2023-05-01 12:00:00"))
              (Examples.constant_site 200 []) Strptime.strptime
              (HTMLParser.__init__ (lit "https://example.org/news/first") 7
                 Examples.configuration) []
              {| status_code := 200; text := [] |} eq_refl eq_refl) as [_ Hheadline].
  destruct (Hheadline (Tag (lit "h1") [(lit "itemprop", AttrStr (lit "headline"))]
                         [NavigableString (lit "Headline")]) eq_refl) as [_ Hdate].
  destruct (Hdate (Tag (lit "time") [(lit "itemprop", AttrStr (lit "datePublished"));
                                     (lit "datetime", AttrStr (lit "2023-05-01 12:00:00"))] [])
              eq_refl) as [_ Hread].
  destruct (Hread (lit "2023-05-01 12:00:00")
              {| year := 2023; month := 5; day := 1; hour := 12; minute := 0; second := 0 |}
              eq_refl) as [Hstrong _]; [vm_compute; reflexivity|].
  apply Hstrong. reflexivity.
Defined.

(** ** The loop of [main] *)

Section MainLoop.
Variable BeautifulSoup : str -> str -> node.
Variable requests_get : network.
Variable strptime : str -> str -> result datetime.

Local Abbreviation parse := (HTMLParser.parse BeautifulSoup requests_get strptime).
Local Abbreviation recorded_loop :=
  (HTMLParser.main_loop BeautifulSoup requests_get strptime
     (list (sink * Article.Article)) (record_call ToRaw) (record_call ToMeta)).

(** Whatever the page, [parse] asks for it once, and an article it returns
    has the URL and the id of the record the parser was made with. *)
Lemma parse_keeps_identity self log :
  snd (parse self log) = log ++ [HTMLParser.full_url self]
  /\ forall a, fst (parse self log) = Ok a ->
       Article.url a = Article.url (HTMLParser.article self)
       /\ Article.article_id a = Article.article_id (HTMLParser.article self).
Proof.
  unfold HTMLParser.parse, make_request.
  destruct (requests_get log (HTMLParser.full_url self) (HTMLParser.config self))
    as [response|e]; [|split; [reflexivity | discriminate]].
  destruct (ok response); [|split; [reflexivity | intros a [= <-]; split; reflexivity]].
  split; [reflexivity|]. cbn [fst]. intros a Ha.
  destruct (HTMLParser._fill_article_with_text self
              (BeautifulSoup (text response) (lit "lxml"))) as [self1|] eqn:Htext;
    cbn [rbind] in Ha; [|discriminate Ha].
  destruct (HTMLParser._fill_article_with_meta_information strptime self1
              (BeautifulSoup (text response) (lit "lxml"))) as [self2|] eqn:Hmeta;
    cbn [rbind] in Ha; [|discriminate Ha].
  injection Ha as Ha. subst a.
  destruct (meta_pass_returns _ _ _ _ Hmeta)
    as (headline & published & d & when & strong & topic_field & more
        & Hh & _ & _ & _ & _ & _ & ->).
  destruct (proj2 (text_pass_facts self (BeautifulSoup (text response) (lit "lxml")))
              headline Hh) as (after & Hafter & _ & Hurl & Hid).
  rewrite Htext in Hafter. injection Hafter as <-.
  cbn [HTMLParser.article HTMLParser.with_article Article.url Article.article_id].
  split; assumption.
Qed.

(** X15. With sinks that record their calls, a run of the loop of [main]
    that returns has asked for every URL once, in order, and has handed each
    record to [to_raw] and then to [to_meta], in the order of the URLs, each
    with its URL and with its position plus one as id. When the loop stops
    on an error, the requests made are an initial part of the URLs. *)
Theorem main_loop_numbers_articles configuration urls : forall index log calls,
  let run := recorded_loop configuration index urls log calls in
  (exists k, (k <= length urls)%nat /\ snd (fst run) = log ++ take k urls)
  /\ (fst (fst run) = Ok tt ->
      snd (fst run) = log ++ urls
      /\ map call_summary (snd run) = map call_summary calls ++ expected_calls index urls).
Proof.
  induction urls as [|url urls IH]; intros index log calls run.
  - subst run. cbn [HTMLParser.main_loop fst snd length expected_calls]. split.
    + exists 0%nat. split; [lia|]. cbn [take]. rewrite app_nil_r. reflexivity.
    + intros _. rewrite !app_nil_r. split; reflexivity.
  - subst run. cbn [HTMLParser.main_loop].
    destruct (parse_keeps_identity (HTMLParser.__init__ url (index + 1) configuration) log)
      as [Hlog Hid].
    destruct (parse (HTMLParser.__init__ url (index + 1) configuration) log)
      as [[a|e] log1].
    + cbn [snd fst] in Hlog, Hid. subst log1.
      destruct (Hid a eq_refl) as [Hurl Hnum].
      cbn [HTMLParser.__init__ HTMLParser.article Article.__init__ Article.url
           Article.article_id HTMLParser.full_url] in Hurl, Hnum.
      change (record_call ToRaw a calls) with (Ok tt, calls ++ [(ToRaw, a)]).
      cbv iota beta.
      change (record_call ToMeta a (calls ++ [(ToRaw, a)]))
        with (Ok tt, (calls ++ [(ToRaw, a)]) ++ [(ToMeta, a)]).
      cbv iota beta. cbn [HTMLParser.full_url HTMLParser.__init__].
      destruct (IH (index + 1) (log ++ [url]) ((calls ++ [(ToRaw, a)]) ++ [(ToMeta, a)]))
        as [(k & Hk & Hprefix) Hret].
      split.
      * exists (S k). split; [cbn [length]; lia|].
        rewrite Hprefix, <- app_assoc. reflexivity.
      * intros Hok. destruct (Hret Hok) as [Hlog' Hcalls].
        split; [rewrite Hlog', <- app_assoc; reflexivity|].
        rewrite Hcalls, !map_app, <- !app_assoc. cbn [map app expected_calls call_summary fst snd].
        unfold call_summary. cbn [fst snd]. rewrite Hurl, Hnum. reflexivity.
    + cbn [snd fst] in Hlog. subst log1.
      cbn [fst snd HTMLParser.full_url HTMLParser.__init__]. split; [|discriminate].
      exists 1%nat. split; [cbn [length]; lia | reflexivity].
Qed.

End MainLoop.

Lemma main_loop_numbers_articles_witness :
  map call_summary
    (snd (HTMLParser.main_loop Examples.soup_of (Examples.constant_site 404 [])
            Strptime.strptime (list (sink * Article.Article))
            (record_call ToRaw) (record_call ToMeta) Examples.configuration 0
            [lit "https://example.org/a"; lit "https://example.org/b"] [] []))
  = [(ToRaw, lit "https://example.org/a", 1); (ToMeta, lit "https://example.org/a", 1);
     (ToRaw, lit "https://example.org/b", 2); (ToMeta, lit "https://example.org/b", 2)].
Proof.
  destruct (main_loop_numbers_articles Examples.soup_of (Examples.constant_site 404 [])
              Strptime.strptime Examples.configuration
              [lit "https://example.org/a"; lit "https://example.org/b"] 0 [] [])
    as [_ Hret].
  destruct Hret as [_ Hcalls]; [reflexivity|]. exact Hcalls.
Defined.

(** ** The dataset check, without reference to the sorting *)

Lemma insert_by_sorted {A : Type} (key : A -> Z) (x : A) (l : list A) :
  StronglySorted (fun a b => key a <= key b) l ->
  StronglySorted (fun a b => key a <= key b) (insert_by key x l).
Proof.
  induction 1 as [|y l Hl IH Hy]; cbn [insert_by].
  - constructor; constructor.
  - destruct (Z.leb_spec (key x) (key y)) as [Hxy|Hxy].
    + constructor; [constructor; assumption|].
      constructor; [exact Hxy|].
      eapply List.Forall_impl; [|exact Hy]. cbn. intros a Ha. lia.
    + constructor; [exact IH|].
      apply (Permutation_Forall (Permutation_sym (insert_by_permutation key x l))).
      constructor; [lia | exact Hy].
Qed.

Lemma sort_by_sorted {A : Type} (key : A -> Z) (l : list A) :
  StronglySorted (fun a b => key a <= key b) (sort_by key l).
Proof.
  induction l as [|x l IH]; [constructor|].
  cbn [sort_by fold_right]. apply insert_by_sorted, IH.
Qed.

Lemma sorted_keys {A : Type} (key : A -> Z) (l : list A) :
  StronglySorted (fun a b => key a <= key b) l -> StronglySorted Z.le (map key l).
Proof.
  induction 1 as [|x l Hl IH Hx]; cbn [map]; constructor; [exact IH|].
  apply List.Forall_map. exact Hx.
Qed.

Lemma ids_after_sorted (n : nat) : forall index, StronglySorted Z.le (ids_after index n).
Proof.
  induction n as [|n IH]; intros index; [constructor|].
  unfold ids_after in *. cbn [seq map]. constructor.
  - rewrite <- seq_shift, map_map.
    replace (map (fun j => index + Z.of_nat (S j)) (seq 1 n))
      with (map (fun j => (index + 1) + Z.of_nat j) (seq 1 n))
      by (apply map_ext; intros j; lia).
    apply IH.
  - apply List.Forall_map, List.Forall_forall. intros j Hj. apply in_seq in Hj. lia.
Qed.

Lemma one_to_sorted (n : nat) : StronglySorted Z.le (one_to n).
Proof.
  replace (one_to n) with (ids_after 0 n); [apply ids_after_sorted|].
  unfold ids_after, one_to. apply map_ext. intros j. lia.
Qed.

Lemma one_to_length (n : nat) : length (one_to n) = n.
Proof. unfold one_to. rewrite length_map, length_seq. reflexivity. Qed.

(** The sorted ids are 1..n exactly when the ids are 1..n in some order. *)
Lemma sorted_ids_one_to {A : Type} (key : A -> Z) (l : list A) (n : nat) :
  map key (sort_by key l) = one_to n <-> Permutation (map key l) (one_to n).
Proof.
  assert (Hperm : Permutation (map key (sort_by key l)) (map key l))
    by apply Permutation_map, sort_by_permutation.
  split.
  - intros <-. symmetry. exact Hperm.
  - intros H. apply (StronglySorted_unique Z.le).
    + apply sorted_keys, sort_by_sorted.
    + apply one_to_sorted.
    + rewrite Hperm. exact H.
Qed.

Lemma glob_permutation (suffix : str) (entries entries' : list dir_entry) :
  Permutation entries entries' -> Permutation (glob suffix entries) (glob suffix entries').
Proof.
  unfold glob. induction 1 as [|e l l' _ IH|e e' l|l l' l'' _ IH1 _ IH2].
  - reflexivity.
  - cbn [List.filter]. destruct (endswith suffix (name e)); [apply perm_skip|]; exact IH.
  - cbn [List.filter].
    destruct (endswith suffix (name e)), (endswith suffix (name e'));
      try reflexivity. apply perm_swap.
  - etransitivity; eassumption.
Qed.

Section DatasetFacts.
Variable get_article_id_from_filepath : str -> Z.

Local Abbreviation article_id := (CorpusManager.article_id get_article_id_from_filepath).
Local Abbreviation validate := (CorpusManager._validate_dataset get_article_id_from_filepath).

(** On a directory that is not empty the check passes or reports an
    inconsistent dataset, and it passes exactly when, for some n, the ids
    of the meta files and the ids of the raw files are both 1..n in some
    order and none of these files is empty. *)
Lemma dataset_passes_iff entries :
  entries <> [] ->
  (validate (Directory entries) = Ok tt
   \/ validate (Directory entries) = Raise InconsistentDatasetError)
  /\ (validate (Directory entries) = Ok tt
      <-> exists n : nat,
            Permutation (map article_id (glob (lit "_meta.json") entries)) (one_to n)
            /\ Permutation (map article_id (glob (lit "_raw.txt") entries)) (one_to n)
            /\ Forall (fun e => st_size e <> 0)
                 (glob (lit "_meta.json") entries ++ glob (lit "_raw.txt") entries)).
Proof.
  intros Hne.
  destruct (Nat.eq_dec (length (glob (lit "_meta.json") entries))
                       (length (glob (lit "_raw.txt") entries))) as [Hlen|Hlen].
  - destruct (validate_equal_counts get_article_id_from_filepath entries Hne Hlen)
      as [Hout Hiff].
    split; [exact Hout|]. rewrite Hiff, !sorted_ids_one_to. split.
    + intros (Hm & Hr & Hsize). exists (length (glob (lit "_meta.json") entries)).
      rewrite Hlen at 2. auto.
    + intros (n & Hm & Hr & Hsize).
      assert (Hn : length (glob (lit "_meta.json") entries) = n).
      { apply Permutation_length in Hm. rewrite length_map, one_to_length in Hm. exact Hm. }
      rewrite <- Hlen, Hn. auto.
  - assert (Hraise : validate (Directory entries) = Raise InconsistentDatasetError).
    { rewrite (validate_directory _ _ Hne). cbv zeta.
      apply Nat.eqb_neq in Hlen. rewrite Hlen. reflexivity. }
    split; [right; exact Hraise|]. rewrite Hraise. split; [discriminate|].
    intros (n & Hm & Hr & _). exfalso. apply Hlen.
    apply Permutation_length in Hm, Hr. rewrite length_map, one_to_length in Hm, Hr.
    congruence.
Qed.

(** X16. A directory that is not empty passes the check exactly when, for
    some n, the ids of its meta files are the numbers 1..n in some order,
    the ids of its raw files are too, and none of these files is empty; in
    every other case the check raises InconsistentDatasetError. *)
Theorem dataset_passes_exactly entries :
  entries <> [] ->
  (validate (Directory entries) = Ok tt
   <-> exists n : nat,
         Permutation (map article_id (glob (lit "_meta.json") entries)) (one_to n)
         /\ Permutation (map article_id (glob (lit "_raw.txt") entries)) (one_to n)
         /\ Forall (fun e => st_size e <> 0)
              (glob (lit "_meta.json") entries ++ glob (lit "_raw.txt") entries))
  /\ (validate (Directory entries) <> Ok tt ->
      validate (Directory entries) = Raise InconsistentDatasetError).
Proof.
  intros Hne. destruct (dataset_passes_iff entries Hne) as [[Hok|Hraise] Hiff].
  - split; [exact Hiff | intros H; contradiction].
  - split; [exact Hiff | intros _; exact Hraise].
Qed.

(** X17. The outcome of the check does not depend on the order in which the
    directory lists its entries. *)
Theorem dataset_check_ignores_listing_order entries entries' :
  Permutation entries entries' ->
  CorpusManager._validate_dataset get_article_id_from_filepath (Directory entries)
  = CorpusManager._validate_dataset get_article_id_from_filepath (Directory entries').
Proof.
  intros Hperm. destruct entries as [|e entries].
  - apply Permutation_nil in Hperm. subst entries'. reflexivity.
  - assert (Hne : e :: entries <> []) by discriminate.
    assert (Hne' : entries' <> []).
    { intros ->. symmetry in Hperm. apply Permutation_nil in Hperm. discriminate Hperm. }
    destruct (dataset_passes_iff _ Hne) as [Hout Hiff].
    destruct (dataset_passes_iff _ Hne') as [Hout' Hiff'].
    assert (Hsame : validate (Directory (e :: entries)) = Ok tt
                    <-> validate (Directory entries') = Ok tt).
    { rewrite Hiff, Hiff'.
      assert (Hm := glob_permutation (lit "_meta.json") _ _ Hperm).
      assert (Hr := glob_permutation (lit "_raw.txt") _ _ Hperm).
      split; intros (n & H1 & H2 & H3); exists n.
      - rewrite <- Hm, <- Hr. auto.
      - rewrite Hm, Hr. auto. }
    destruct Hout as [Hok|Hraise].
    + rewrite Hok. symmetry. apply Hsame. exact Hok.
    + destruct Hout' as [Hok'|Hraise']; [|congruence].
      apply Hsame in Hok'. congruence.
Qed.

End DatasetFacts.

Lemma dataset_passes_exactly_witness :
  CorpusManager._validate_dataset Examples.id_of_name Examples.dataset_matched = Ok tt.
Proof.
  apply (dataset_passes_exactly Examples.id_of_name); [discriminate|].
  exists 3%nat. split; [|split].
  - change (Permutation [1; 3; 2] [1; 2; 3]). apply perm_skip, perm_swap.
  - change (Permutation [2; 1; 3] [1; 2; 3]). apply perm_swap.
  - vm_compute. repeat (apply List.Forall_cons; [discriminate|]). apply List.Forall_nil.
Defined.

Lemma dataset_check_ignores_listing_order_witness :
  CorpusManager._validate_dataset Examples.id_of_name
    (Directory [Examples.file "1_meta.json" 12; Examples.file "1_raw.txt" 40])
  = CorpusManager._validate_dataset Examples.id_of_name
      (Directory [Examples.file "1_raw.txt" 40; Examples.file "1_meta.json" 12]).
Proof.
  apply dataset_check_ignores_listing_order. apply perm_swap.
Defined.

(** ** The storage of a corpus manager *)

Section Storage.
Context {A V : Type} (key : A -> Z) (value : A -> V).

Local Abbreviation scan :=
  (fold_left (fun (storage : gmap Z V) file => <[key file := value file]> storage)).

Lemma scan_lookup_other (l : list A) : forall (m : gmap Z V) i,
  ~ In i (map key l) -> scan l m !! i = m !! i.
Proof.
  induction l as [|x l IH]; intros m i Hi; [reflexivity|].
  cbn [fold_left]. rewrite IH by (intros H; apply Hi; right; exact H).
  apply lookup_insert_ne. intros Heq. apply Hi. left. exact Heq.
Qed.

Lemma scan_lookup (l : list A) : forall (m : gmap Z V) x,
  List.NoDup (map key l) -> In x l -> scan l m !! key x = Some (value x).
Proof.
  induction l as [|y l IH]; intros m x Hnd Hin; [destruct Hin|].
  cbn [map] in Hnd. apply List.NoDup_cons_iff in Hnd. destruct Hnd as [Hy Hnd].
  cbn [fold_left]. destruct Hin as [->|Hin].
  - rewrite scan_lookup_other by exact Hy. apply lookup_insert_eq.
  - apply IH; assumption.
Qed.

Lemma scan_is_some (l : list A) : forall (m : gmap Z V) i,
  is_Some (scan l m !! i) <-> In i (map key l) \/ is_Some (m !! i).
Proof.
  induction l as [|x l IH]; intros m i.
  - cbn. intuition.
  - cbn [fold_left map In]. rewrite IH, lookup_insert_is_Some.
    destruct (Z.eq_dec (key x) i); intuition.
Qed.

End Storage.

Lemma in_one_to (n : nat) (i : Z) : In i (one_to n) <-> 1 <= i <= Z.of_nat n.
Proof.
  unfold one_to. rewrite in_map_iff. split.
  - intros (j & <- & Hj). apply in_seq in Hj. lia.
  - intros Hi. exists (Z.to_nat i). split; [lia | apply in_seq; lia].
Qed.

Lemma one_to_nodup (n : nat) : List.NoDup (one_to n).
Proof.
  unfold one_to. apply Finite.Injective_map_NoDup; [|apply seq_NoDup].
  intros a b. lia.
Qed.

Section CorpusFacts.
Variable get_article_id_from_filepath : str -> Z.
Variable Stored : Type.
Variable from_raw : str -> Z -> Stored.

Local Abbreviation article_id := (CorpusManager.article_id get_article_id_from_filepath).
Local Abbreviation init :=
  (CorpusManager.__init__ get_article_id_from_filepath Stored from_raw).

(** X18. A corpus manager can only be built on a directory that passes the
    check, and its storage then holds exactly the ids 1..N, N being the
    number of raw files: one article per raw file, under the id of that
    file, loaded from that file. *)
Theorem corpus_storage_ids entries self :
  init (Directory entries) = Ok self ->
  let raws := glob (lit "_raw.txt") entries in
  let storage := CorpusManager.get_articles Stored self in
  CorpusManager._validate_dataset get_article_id_from_filepath (Directory entries) = Ok tt
  /\ CorpusManager.path_to_raw_txt_data Stored self = Directory entries
  /\ (forall i, is_Some (storage !! i) <-> 1 <= i <= Z.of_nat (length raws))
  /\ (forall file, In file raws ->
        storage !! article_id file = Some (from_raw (name file) (article_id file)))
  /\ size storage = length raws.
Proof.
  intros Hinit raws storage. unfold CorpusManager.__init__ in Hinit.
  destruct (CorpusManager._validate_dataset get_article_id_from_filepath (Directory entries))
    as [[]|] eqn:Hvalid; [|discriminate Hinit].
  cbn [rbind] in Hinit.
  assert (Hself : {| CorpusManager.path_to_raw_txt_data := Directory entries;
                     CorpusManager._storage :=
                       CorpusManager._scan_dataset get_article_id_from_filepath Stored
                         from_raw (Directory entries) |} = self) by congruence.
  subst self. clear Hinit.
  subst storage. cbn [CorpusManager.get_articles CorpusManager._storage
                      CorpusManager.path_to_raw_txt_data CorpusManager._scan_dataset].
  fold raws.
  assert (Hne : entries <> []) by (intros ->; discriminate Hvalid).
  destruct (dataset_passes_iff get_article_id_from_filepath entries Hne) as [_ Hiff].
  apply Hiff in Hvalid. destruct Hvalid as (n & _ & Hperm & _). fold raws in Hperm.
  assert (Hn : length raws = n).
  { apply Permutation_length in Hperm. rewrite length_map, one_to_length in Hperm.
    exact Hperm. }
  assert (Hnd : List.NoDup (map article_id raws)).
  { apply (Permutation_NoDup (Permutation_sym Hperm)), one_to_nodup. }
  split; [reflexivity | split; [reflexivity|]].
  assert (Hdom : forall i,
             is_Some (fold_left
                        (fun (storage : gmap Z Stored) file =>
                           <[article_id file := from_raw (name file) (article_id file)]>
                             storage) raws ∅ !! i)
             <-> 1 <= i <= Z.of_nat (length raws)).
  { intros i.
    rewrite (scan_is_some article_id (fun file => from_raw (name file) (article_id file))).
    rewrite lookup_empty, is_Some_alt, Hn, <- in_one_to.
    split.
    - intros [Hi | []]. exact (Permutation_in _ Hperm Hi).
    - intros Hi. left. exact (Permutation_in _ (Permutation_sym Hperm) Hi). }
  split; [exact Hdom|]. split.
  - intros file Hin.
    apply (scan_lookup article_id (fun file => from_raw (name file) (article_id file)));
      assumption.
  - rewrite <- size_dom.
    assert (Heq : dom (fold_left
                         (fun (storage : gmap Z Stored) file =>
                            <[article_id file := from_raw (name file) (article_id file)]>
                              storage) raws ∅)
                  = list_to_set (one_to (length raws)) :> gset Z).
    { apply set_eq. intros i.
      rewrite elem_of_dom, Hdom, elem_of_list_to_set, list_elem_of_In, in_one_to.
      reflexivity. }
    rewrite Heq, size_list_to_set, one_to_length; [reflexivity|].
    apply NoDup_ListNoDup, one_to_nodup.
Qed.

End CorpusFacts.

Lemma corpus_storage_ids_witness :
  exists self,
    CorpusManager.__init__ Examples.id_of_name str (fun path _ => path)
      Examples.dataset_matched = Ok self
    /\ size (CorpusManager.get_articles str self) = 3%nat
    /\ CorpusManager.get_articles str self !! 2 = Some (lit "2_raw.txt").
Proof.
  eexists. split; [vm_compute; reflexivity|].
  match goal with
  | |- size (CorpusManager.get_articles str ?s) = _ /\ _ =>
      destruct (corpus_storage_ids Examples.id_of_name str (fun path _ => path)
                  [Examples.file "2_raw.txt" 40; Examples.file "1_meta.json" 12;
                   Examples.file "3_meta.json" 12; Examples.file "1_raw.txt" 40;
                   Examples.file "3_raw.txt" 40; Examples.file "2_meta.json" 12] s)
        as (_ & _ & _ & Hlookup & Hsize)
  end.
  - vm_compute. reflexivity.
  - split; [exact Hsize|].
    apply (Hlookup (Examples.file "2_raw.txt" 40)). left. reflexivity.
Defined.

(** ** prepare_environment *)

Lemma unlink_all_outcome (children : list child) :
  (Forall (fun c => child_is_dir c = false) children
   /\ unlink_all children = Returned (Dir []))
  \/ (exists removed sub rest,
        children = removed ++ sub :: rest
        /\ Forall (fun c => child_is_dir c = false) removed
        /\ child_is_dir sub = true
        /\ unlink_all children = RaisedOSError (Dir (sub :: rest))).
Proof.
  induction children as [|c children IH].
  - left. split; [apply List.Forall_nil | reflexivity].
  - cbn [unlink_all]. destruct (child_is_dir c) eqn:Hc.
    + right. exists [], c, children. repeat split; [apply List.Forall_nil | exact Hc].
    + destruct IH as [[Hall Hret] | (removed & sub & rest & -> & Hall & Hsub & Hraise)].
      * left. split; [apply List.Forall_cons; assumption | exact Hret].
      * right. exists (c :: removed), sub, rest.
        repeat split; [apply List.Forall_cons; assumption | exact Hsub | exact Hraise].
Qed.

(** X19. When [prepare_environment] returns, the path is a directory with
    nothing in it, and it returns exactly when there was nothing at the
    path or a directory none of whose children is a directory. Otherwise it
    raises: on something that is not a directory nothing is changed, and on
    a directory the children before the first subdirectory are gone while
    that subdirectory and what follows it are left. *)
Theorem prepare_environment_outcome (base_path : base_path_state) :
  (forall after, prepare_environment base_path = Returned after -> after = Dir [])
  /\ ((exists after, prepare_environment base_path = Returned after)
      <-> base_path = Absent
          \/ exists children, base_path = Dir children
                              /\ Forall (fun c => child_is_dir c = false) children)
  /\ (base_path = NotADir -> prepare_environment base_path = RaisedOSError NotADir)
  /\ (forall children after,
        base_path = Dir children ->
        prepare_environment base_path = RaisedOSError after ->
        exists removed sub rest,
          children = removed ++ sub :: rest
          /\ Forall (fun c => child_is_dir c = false) removed
          /\ child_is_dir sub = true
          /\ after = Dir (sub :: rest)).
Proof.
  split; [|split; [|split]].
  - intros after. destruct base_path as [| |children]; cbn [prepare_environment unlink_all].
    + congruence.
    + discriminate.
    + destruct (unlink_all_outcome children) as [[_ ->] | (r & s & t & _ & _ & _ & ->)];
        congruence.
  - split.
    + intros [after Hret]. destruct base_path as [| |children]; [left; reflexivity | |].
      * discriminate Hret.
      * right. exists children. split; [reflexivity|]. cbn [prepare_environment] in Hret.
        destruct (unlink_all_outcome children) as [[Hall _] | (r & s & t & _ & _ & _ & Hr)];
          [exact Hall | congruence].
    + intros [-> | (children & -> & Hall)]; [eexists; reflexivity|].
      exists (Dir []). cbn [prepare_environment].
      destruct (unlink_all_outcome children) as [[_ Hret] | (r & s & t & -> & _ & Hs & _)];
        [exact Hret|].
      apply Forall_app in Hall. destruct Hall as [_ Hall].
      apply Forall_cons in Hall. destruct Hall as [Hs' _]. congruence.
  - intros ->. reflexivity.
  - intros children after -> Hraise. cbn [prepare_environment] in Hraise.
    destruct (unlink_all_outcome children) as [[_ Hret] | (r & s & t & Hc & Hall & Hs & Hr)];
      [congruence|].
    exists r, s, t. repeat split; try assumption. congruence.
Qed.

Lemma prepare_environment_outcome_witness :
  prepare_environment MoreExamples.assets_with_subdirectory
  = RaisedOSError (Dir [{| child_name := lit "old"; child_is_dir := true |};
                        {| child_name := lit "1_meta.json"; child_is_dir := false |}])
  /\ exists after, prepare_environment Absent = Returned after.
Proof.
  split; [reflexivity|].
  apply (prepare_environment_outcome Absent). left. reflexivity.
Defined.
